(** * R(2+1)D symbol definition (net.py): graph construction

    A shallow embedding of [net.py].  The graph engine is external: each of
    its node constructors allocates one node.  The engine is modelled as a
    creation log, a list of nodes in allocation order, in which a node refers
    to its inputs by handle (the position of the input in the log).  A node
    records the keyword arguments the source passes, nothing the engine adds
    (inferred shapes, parameter variables).  The names the engine gives the
    nodes the source leaves unnamed are read off the log ([engine_names]).

    Python integers are [Z]; the two builder counters, which start at 0 and
    only grow, are [nat].  The floating-point hyper-parameters (epsilon,
    momentum) are never computed with, only passed on, and are rationals.
    The one division of the source, [i /= d] on two integers, is Python 3
    true division: the ratio correctly rounded to a double (nearest, ties to
    even), [ZeroDivisionError] for a zero divisor and [OverflowError] when
    the ratio is too large for a double; [int(i)] truncates toward zero.

    Exceptions are an error result that keeps the log, so that the nodes
    allocated before a failure can be counted.  The builder object is
    threaded through its methods and returned with their result; a method
    that raises returns no builder.  The calls to [logger.info] are not
    modelled. *)

From Stdlib Require Import ZArith QArith List String Ascii Bool Lia.
From Stdlib Require Import DecimalString DecimalNat.
Import ListNotations.

Local Open Scope string_scope.
Local Open Scope Z_scope.

(** ** Data model *)

Definition handle := nat.
Bind Scope nat_scope with handle.
Definition triple := (Z * Z * Z)%type.

(** One node of the engine's graph, with the keyword arguments the source
    passes.  An argument the source leaves out at some call site is an
    [option], [None] meaning that the engine's default applies.  [Activation]
    and the elementwise addition are created without a name. *)
Inductive Node : Type :=
| Var (name : string) (dtype : string)
| Convolution (data : handle) (num_filter : Z) (kernel stride : triple)
    (pad : option triple) (no_bias : Z) (cudnn_tune : option string)
    (workspace : option Z) (name : string)
| BatchNorm (data : handle) (fix_gamma : bool) (eps : Q)
    (momentum : option Q) (name : string)
| Activation (data : handle) (act_type : string)
| Plus (lhs rhs : handle)
| Pooling (data : handle) (kernel stride pad : triple) (pool_type : string)
    (name : string)
| FullyConnected (data : handle) (num_hidden : Z) (name : string)
| SoftmaxOutput (data label : handle) (multi_output use_ignore : bool)
    (normalization : string) (name : string).

Definition store := list Node.

Inductive Exception : Type :=
| KeyError (key : Z)
| ZeroDivisionError
| OverflowError.

Inductive result (A : Type) : Type :=
| Ok (a : A)
| Raise (e : Exception).
Arguments Ok {A} a.
Arguments Raise {A} e.

(** ** The construction monad: state (the creation log) and exceptions *)

Definition M (A : Type) : Type := store -> result A * store.

Definition ret {A} (a : A) : M A := fun s => (Ok a, s).

Definition raise {A} (e : Exception) : M A := fun s => (Raise e, s).

Definition bind {A B} (m : M A) (f : A -> M B) : M B :=
  fun s => match m s with
           | (Ok a, s') => f a s'
           | (Raise e, s') => (Raise e, s')
           end.

Notation "x <- m ;; k" := (bind m (fun x => k))
  (at level 61, m at next level, right associativity).
Notation "' p <- m ;; k" := (bind m (fun x => let 'p := x in k))
  (at level 61, p pattern, m at next level, right associativity).

(** A constructor call of the engine: allocate the node, return its handle. *)
Definition emit (n : Node) : M handle :=
  fun s => (Ok (List.length s), (s ++ [n])%list).

(** ** String formatting: ['%d' % n] *)

Definition fmt_d (n : nat) : string := NilEmpty.string_of_uint (Nat.to_uint n).

(** ** BLOCK_CONFIG *)

Definition BLOCK_CONFIG (model_depth : Z) : option (Z * Z * Z * Z) :=
  if model_depth =? 10 then Some (1, 1, 1, 1)
  else if model_depth =? 16 then Some (2, 2, 2, 1)
  else if model_depth =? 18 then Some (2, 2, 2, 2)
  else if model_depth =? 26 then Some (2, 3, 4, 3)
  else if model_depth =? 34 then Some (3, 4, 6, 3)
  else None.

(** ** ModelBuilder *)

Record ModelBuilder : Type := mkBuilder {
  comp_count : nat;
  comp_idx : nat;
  bn_mom : Q;
  no_bias : Z;
  cudnn_tune : string;
  workspace : Z
}.

(** Python truth value of an integer. *)
Definition truthy (z : Z) : bool := negb (z =? 0).

(** [ModelBuilder.__init__] *)
Definition ModelBuilder_init (no_bias : Z) (bn_mom : Q) (cudnn_tune : string)
    (workspace : Z) : ModelBuilder :=
  mkBuilder 0 0 bn_mom (if truthy no_bias then 1 else 0) cudnn_tune workspace.

Definition set_comp_idx (self : ModelBuilder) (i : nat) : ModelBuilder :=
  mkBuilder (comp_count self) i (bn_mom self) (no_bias self)
            (cudnn_tune self) (workspace self).

Definition set_comp_count (self : ModelBuilder) (c : nat) : ModelBuilder :=
  mkBuilder c (comp_idx self) (bn_mom self) (no_bias self)
            (cudnn_tune self) (workspace self).

(** A finite double: [mantissa * 2 ^ exponent], with a mantissa of at most
    53 bits and an exponent of at least -1074. *)
Record double : Type := mkDouble { mantissa : Z; exponent : Z }.

(** The ratio [n / (d * 2 ^ e)] as a numerator and a denominator. *)
Definition scaled (n d e : Z) : Z * Z :=
  if 0 <=? e then (n, d * 2 ^ e) else (n * 2 ^ (- e), d).

(** The integer nearest to [N / D], the even one of the two when [N / D] is
    half-way between them. *)
Definition round_half_even (N D : Z) : Z :=
  let q := N / D in
  let r := N mod D in
  if 2 * r <? D then q
  else if D <? 2 * r then q + 1
  else if Z.even q then q else q + 1.

(** The exponent of the double nearest to [n / d], for positive [n] and
    [d]: the [e] for which [n / (d * 2 ^ e)] has 53 bits before the point,
    but not less than -1074, the exponent of the subnormal doubles. *)
Definition ratio_exponent (n d : Z) : Z :=
  let e1 := Z.log2 n - Z.log2 d - 52 in
  let '(N, D) := scaled n d e1 in
  Z.max (if N / D <? 2 ^ 52 then e1 - 1 else e1) (-1074).

(** The double nearest to [n / d], for [0 <= n] and [0 < d]. *)
Definition round_ratio (n d : Z) : double :=
  let e := ratio_exponent n d in
  let '(N, D) := scaled n d e in
  mkDouble (round_half_even N D) e.

(** A rounded value of [2 ^ 1024] or more has no double. *)
Definition overflows (x : double) : bool :=
  (0 <=? exponent x) && (2 ^ 1024 <=? mantissa x * 2 ^ exponent x).

(** [int(i)]: truncation of a double toward zero. *)
Definition py_int (x : double) : Z :=
  if 0 <=? exponent x then mantissa x * 2 ^ exponent x
  else Z.quot (mantissa x) (2 ^ (- exponent x)).

(** [i /= d] on two integers (Python 3): the correctly rounded ratio;
    [ZeroDivisionError] when [d] is 0, [OverflowError] when the result is
    too large for a double. *)
Definition py_div (i d : Z) : M double :=
  if d =? 0 then raise ZeroDivisionError
  else
    let x := round_ratio (Z.abs i) (Z.abs d) in
    if overflows x then raise OverflowError
    else ret (mkDouble (Z.sgn i * Z.sgn d * mantissa x) (exponent x)).

(** Lines 34-36: the number of middle filters. *)
Definition middle_filters (in_filters out_filters : Z) : M Z :=
  let i := 3 * in_filters * out_filters * 3 * 3 in
  i <- py_div i (in_filters * 3 * 3 + 3 * out_filters) ;;
  ret (py_int i).

Definition eps_1e_3 : Q := (1 # 1000)%Q.

Definition add_spatial_temporal_conv (self : ModelBuilder) (body : handle)
    (in_filters out_filters : Z) (stride : triple) : M (ModelBuilder * handle) :=
  let self := set_comp_idx self (comp_idx self + 1) in
  middle <- middle_filters in_filters out_filters ;;
  let '(stride0, stride1, stride2) := stride in
  (* 1x3x3 Convolution *)
  body <- emit (Convolution body middle (1, 3, 3) (1, stride1, stride2)
                  (Some (0, 1, 1)) (no_bias self) (Some (cudnn_tune self))
                  (Some (workspace self))
                  ("comp_" ++ fmt_d (comp_count self) ++ "_conv_"
                   ++ fmt_d (comp_idx self) ++ "_middle")) ;;
  body <- emit (BatchNorm body false eps_1e_3 (Some (bn_mom self))
                  ("comp_" ++ fmt_d (comp_count self) ++ "_spatbn_"
                   ++ fmt_d (comp_idx self) ++ "_middle")) ;;
  body <- emit (Activation body "relu") ;;
  (* 3x1x1 Convolution *)
  body <- emit (Convolution body out_filters (3, 1, 1) (stride0, 1, 1)
                  (Some (1, 0, 0)) (no_bias self) (Some (cudnn_tune self))
                  (Some (workspace self))
                  ("comp_" ++ fmt_d (comp_count self) ++ "_conv_"
                   ++ fmt_d (comp_idx self))) ;;
  ret (self, body).

(** Lines 66-69 of [add_r3d_block]. *)
Definition use_striding (down_sampling only_spatial_downsampling : bool)
  : triple :=
  if down_sampling then
    if only_spatial_downsampling then (1, 2, 2) else (2, 2, 2)
  else (1, 1, 1).

Definition add_r3d_block (self : ModelBuilder) (data : handle)
    (input_filters num_filters : Z)
    (down_sampling spatial_batch_norm only_spatial_downsampling : bool)
  : M (ModelBuilder * handle) :=
  let self := set_comp_idx self 0 in
  let shortcut := data in
  let use_striding := use_striding down_sampling only_spatial_downsampling in
  (* add 1*3*3 and 3*1*1 conv *)
  '(self, body) <- add_spatial_temporal_conv self data input_filters
                     num_filters use_striding ;;
  body <- emit (BatchNorm body false eps_1e_3 (Some (bn_mom self))
                  ("comp_" ++ fmt_d (comp_count self) ++ "_spatbn_"
                   ++ fmt_d (comp_idx self))) ;;
  body <- emit (Activation body "relu") ;;
  (* add 1*3*3 and 3*1*1 conv *)
  '(self, body) <- add_spatial_temporal_conv self body num_filters
                     num_filters (1, 1, 1) ;;
  body <- emit (BatchNorm body false eps_1e_3 (Some (bn_mom self))
                  ("comp_" ++ fmt_d (comp_count self) ++ "_spatbn_"
                   ++ fmt_d (comp_idx self))) ;;
  (* Increase of dimensions, need a projection for the shortcut *)
  shortcut <-
    (if negb (num_filters =? input_filters) || down_sampling then
       shortcut <- emit (Convolution shortcut num_filters (1, 1, 1)
                           use_striding None (no_bias self) None None
                           ("shortcut_projection_"
                            ++ fmt_d (comp_count self))) ;;
       emit (BatchNorm shortcut false eps_1e_3 None
               ("shortcut_projection_" ++ fmt_d (comp_count self)
                ++ "_spatbn"))
     else ret shortcut) ;;
  out <- emit (Plus shortcut body) ;;
  out <- emit (Activation out "relu") ;;
  (* Keep track of number of high level components *)
  let self := set_comp_count self (comp_count self + 1) in
  ret (self, out).

(** [for _ in range(n): body = builder.add_r3d_block(body, i, o)] *)
Fixpoint block_loop (n : nat) (builder : ModelBuilder) (body : handle)
    (input_filters num_filters : Z) : M (ModelBuilder * handle) :=
  match n with
  | O => ret (builder, body)
  | S n' =>
      '(builder, body) <- add_r3d_block builder body input_filters
                            num_filters false true false ;;
      block_loop n' builder body input_filters num_filters
  end.

(** [range(n)] runs [n] times, and not at all when [n] is negative. *)
Definition range (n : Z) : nat := Z.to_nat n.

Definition create_r3d (num_class no_bias model_depth final_spatial_kernel
    final_temporal_kernel : Z) (bn_mom : Q) (cudnn_tune : string)
    (workspace : Z) : M handle :=
  (* Begin Layers *)
  data <- emit (Var "data" "float32") ;;
  body <- emit (Convolution data 45 (1, 7, 7) (1, 2, 2) (Some (0, 3, 3))
                  no_bias (Some cudnn_tune) (Some workspace)
                  "conv1_middle") ;;
  body <- emit (BatchNorm body false eps_1e_3 (Some bn_mom)
                  "conv1_middle_spatbn_relu") ;;
  body <- emit (Activation body "relu") ;;
  body <- emit (Convolution body 64 (3, 1, 1) (1, 1, 1) (Some (1, 0, 0))
                  no_bias (Some cudnn_tune) (Some workspace) "conv1") ;;
  body <- emit (BatchNorm body false eps_1e_3 (Some bn_mom)
                  "conv1_spatbn_relu") ;;
  body <- emit (Activation body "relu") ;;
  '(n1, n2, n3, n4) <-
    match BLOCK_CONFIG model_depth with
    | Some cfg => ret cfg
    | None => raise (KeyError model_depth)
    end ;;
  (* Residual Blocks *)
  let builder := ModelBuilder_init no_bias bn_mom cudnn_tune workspace in
  (* conv_2x *)
  '(builder, body) <- block_loop (range n1) builder body 64 64 ;;
  (* conv_3x *)
  '(builder, body) <- add_r3d_block builder body 64 128 true true false ;;
  '(builder, body) <- block_loop (range (n2 - 1)) builder body 128 128 ;;
  (* conv_4x *)
  '(builder, body) <- add_r3d_block builder body 128 256 true true false ;;
  '(builder, body) <- block_loop (range (n3 - 1)) builder body 256 256 ;;
  (* conv_5x *)
  '(builder, body) <- add_r3d_block builder body 256 512 true true false ;;
  '(builder, body) <- block_loop (range (n4 - 1)) builder body 512 512 ;;
  (* Final Layers *)
  body <- emit (Pooling body
                  (final_temporal_kernel, final_spatial_kernel,
                   final_spatial_kernel)
                  (1, 1, 1) (0, 0, 0) "avg" "final_pool") ;;
  body <- emit (FullyConnected body num_class "final_fc") ;;
  label <- emit (Var "softmax_label" "float32") ;;
  output <- emit (SoftmaxOutput body label true true "null" "softmax") ;;
  ret output.

(** ** What one builder call allocates

    Closed forms of the nodes a call appends to the log, as a function of the
    handle [base] the first of them receives; the [_run] lemmas below show
    that the methods allocate exactly these. *)

(** What lines 34-36 give; they read no node and allocate none. *)
Definition middle_result (i o : Z) : result Z := fst (middle_filters i o []).

Definition middle_ok (i o : Z) : Prop := exists m, middle_result i o = Ok m.

(** The middle width of a decomposed convolution that is allocated. *)
Definition middle_quot (i o : Z) : Z :=
  match middle_result i o with
  | Ok m => m
  | Raise _ => 0
  end.

Definition st_conv_nodes (self : ModelBuilder) (body : handle) (i o : Z)
    (stride : triple) (base : nat) : list Node :=
  let idx := (comp_idx self + 1)%nat in
  [ Convolution body (middle_quot i o)
      (1, 3, 3) (1, snd (fst stride), snd stride) (Some (0, 1, 1))
      (no_bias self) (Some (cudnn_tune self)) (Some (workspace self))
      ("comp_" ++ fmt_d (comp_count self) ++ "_conv_" ++ fmt_d idx
       ++ "_middle");
    BatchNorm base false eps_1e_3 (Some (bn_mom self))
      ("comp_" ++ fmt_d (comp_count self) ++ "_spatbn_" ++ fmt_d idx
       ++ "_middle");
    Activation (base + 1)%nat "relu";
    Convolution (base + 2)%nat o (3, 1, 1) (fst (fst stride), 1, 1)
      (Some (1, 0, 0)) (no_bias self) (Some (cudnn_tune self))
      (Some (workspace self))
      ("comp_" ++ fmt_d (comp_count self) ++ "_conv_" ++ fmt_d idx) ]%list.

Definition needs_projection (input_filters num_filters : Z)
    (down_sampling : bool) : bool :=
  negb (num_filters =? input_filters) || down_sampling.

Definition shortcut_nodes (self : ModelBuilder) (data : handle) (o : Z)
    (stride : triple) (base : nat) : list Node :=
  [ Convolution data o (1, 1, 1) stride None (no_bias self) None None
      ("shortcut_projection_" ++ fmt_d (comp_count self));
    BatchNorm base false eps_1e_3 None
      ("shortcut_projection_" ++ fmt_d (comp_count self) ++ "_spatbn") ]%list.

Definition block_nodes (self : ModelBuilder) (data : handle) (i o : Z)
    (down only_spatial : bool) (base : nat) : list Node :=
  (st_conv_nodes (set_comp_idx self 0) data i o
     (use_striding down only_spatial) base
   ++ [ BatchNorm (base + 3)%nat false eps_1e_3 (Some (bn_mom self))
          ("comp_" ++ fmt_d (comp_count self) ++ "_spatbn_" ++ fmt_d 1);
        Activation (base + 4)%nat "relu" ]
   ++ st_conv_nodes (set_comp_idx self 1) (base + 5)%nat o o (1, 1, 1)
        (base + 6)%nat
   ++ [ BatchNorm (base + 9)%nat false eps_1e_3 (Some (bn_mom self))
          ("comp_" ++ fmt_d (comp_count self) ++ "_spatbn_" ++ fmt_d 2) ]
   ++ (if needs_projection i o down then
         shortcut_nodes self data o (use_striding down only_spatial)
           (base + 11)%nat
         ++ [ Plus (base + 12)%nat (base + 10)%nat;
              Activation (base + 13)%nat "relu" ]
       else
         [ Plus data (base + 10)%nat;
           Activation (base + 11)%nat "relu" ]))%list.

(** The handle of the block's output node. *)
Definition block_out (i o : Z) (down : bool) (base : nat) : handle :=
  if needs_projection i o down then (base + 14)%nat else (base + 12)%nat.

(** The builder after a block. *)
Definition block_builder (self : ModelBuilder) : ModelBuilder :=
  mkBuilder (comp_count self + 1) 2 (bn_mom self) (no_bias self)
            (cudnn_tune self) (workspace self).

(** ** Relocation: the same graph at another place of the log

    [shift_node k] moves every input handle of a node [k] places up.  A
    computation is framed when, run on a log that holds [s0] in front of a
    relocated copy of [s1], it does what it does on [s1], relocated. *)

Definition shift_node (k : nat) (n : Node) : Node :=
  match n with
  | Var name dtype => Var name dtype
  | Convolution d nf ke st pa nb ct ws name =>
      Convolution (k + d)%nat nf ke st pa nb ct ws name
  | BatchNorm d fg e m name => BatchNorm (k + d)%nat fg e m name
  | Activation d a => Activation (k + d)%nat a
  | Plus l r => Plus (k + l)%nat (k + r)%nat
  | Pooling d ke st pa pt name => Pooling (k + d)%nat ke st pa pt name
  | FullyConnected d nh name => FullyConnected (k + d)%nat nh name
  | SoftmaxOutput d l mo ui no name =>
      SoftmaxOutput (k + d)%nat (k + l)%nat mo ui no name
  end.

(** The name the source gives a node, if it gives one. *)
Definition node_name (n : Node) : option string :=
  match n with
  | Var name _ | Convolution _ _ _ _ _ _ _ _ name | BatchNorm _ _ _ _ name
  | Pooling _ _ _ _ _ name | FullyConnected _ _ name
  | SoftmaxOutput _ _ _ _ _ name => Some name
  | Activation _ _ | Plus _ _ => None
  end.

Definition map_result {A B} (f : A -> B) (r : result A) : result B :=
  match r with
  | Ok a => Ok (f a)
  | Raise e => Raise e
  end.

Definition reloc (s0 s1 : store) : store :=
  (s0 ++ map (shift_node (List.length s0)) s1)%list.

Definition framed {A} (s0 : store) (sh : A -> A) (m m' : M A) : Prop :=
  forall s1, m' (reloc s0 s1)
             = (map_result sh (fst (m s1)), reloc s0 (snd (m s1))).

Definition shift_out (k : nat) (x : ModelBuilder * handle)
  : ModelBuilder * handle := (fst x, (k + snd x)%nat).

(** ** Observations on a graph *)

(** The names the source generated, in creation order. *)
Definition names (g : store) : list string :=
  flat_map (fun n => match node_name n with
                     | Some x => [x]
                     | None => []
                     end) g.

Definition is_plus (n : Node) : bool :=
  match n with
  | Plus _ _ => true
  | _ => false
  end.

(** A residual block ends in the one elementwise addition it allocates. *)
Definition residual_blocks (g : store) : nat :=
  List.length (filter is_plus g).

(** The nodes of the stem, allocated before the depth is looked up. *)
Definition stem_nodes (nb : Z) (mom : Q) (ct : string) (ws : Z) (base : nat)
  : list Node :=
  [ Var "data" "float32";
    Convolution base 45 (1, 7, 7) (1, 2, 2) (Some (0, 3, 3)) nb (Some ct)
      (Some ws) "conv1_middle";
    BatchNorm (base + 1)%nat false eps_1e_3 (Some mom)
      "conv1_middle_spatbn_relu";
    Activation (base + 2)%nat "relu";
    Convolution (base + 3)%nat 64 (3, 1, 1) (1, 1, 1) (Some (1, 0, 0)) nb
      (Some ct) (Some ws) "conv1";
    BatchNorm (base + 4)%nat false eps_1e_3 (Some mom) "conv1_spatbn_relu";
    Activation (base + 5)%nat "relu" ]%list.

(** A 1x1x1 convolution: the block allocates one only as shortcut
    projection (the main path has kernels 1x3x3 and 3x1x1). *)
Definition is_projection (n : Node) : bool :=
  match n with
  | Convolution _ _ (kt, kh, kw) _ _ _ _ _ _ =>
      (kt =? 1) && (kh =? 1) && (kw =? 1)
  | _ => false
  end.

Fixpoint nodupb (l : list string) : bool :=
  match l with
  | [] => true
  | x :: l' => negb (existsb (String.eqb x) l') && nodupb l'
  end%list.

(** The channel count of each node's output, in creation order: a
    convolution and the fully-connected layer set it, every other operator
    keeps that of its (first) input, the placeholders have none. *)
Definition channels_step (acc : list (option Z)) (n : Node) : option Z :=
  match n with
  | Var _ _ => None
  | Convolution _ nf _ _ _ _ _ _ _ => Some nf
  | FullyConnected _ nh _ => Some nh
  | BatchNorm d _ _ _ _ | Activation d _ | Pooling d _ _ _ _ _
  | SoftmaxOutput d _ _ _ _ _ => nth d acc None
  | Plus l _ => nth l acc None
  end.

Definition channels (g : store) : list (option Z) :=
  fold_left (fun acc n => acc ++ [channels_step acc n])%list g [].

(** The input of the block whose addition has [lhs] as shortcut: the node the
    projection (batch-norm of a convolution) reads, or [lhs] itself. *)
Definition block_input (g : store) (lhs : handle) : handle :=
  match nth_error g lhs with
  | Some (BatchNorm d _ _ _ _) =>
      match nth_error g d with
      | Some (Convolution x _ _ _ _ _ _ _ _) => x
      | _ => lhs
      end
  | _ => lhs
  end.

(** Per residual block, in block order: the channels of its input and of its
    main path's result. *)
Definition block_widths (g : store) : list (option Z * option Z) :=
  flat_map (fun n => match n with
                     | Plus l r => [(nth (block_input g l) (channels g) None,
                                     nth r (channels g) None)]
                     | _ => []
                     end) g.

(** Whether the node at [h] is the shortcut operand of an addition. *)
Definition on_shortcut (g : store) (h : handle) : bool :=
  existsb (fun n => match n with
                    | Plus l _ => Nat.eqb l h
                    | _ => false
                    end) g.

(** Every batch-norm of [rest] (the nodes of [g] from handle [h] on) has no
    momentum argument if it is a shortcut operand, and [mom] otherwise. *)
Fixpoint bn_momentum_ok (mom : Q) (g : store) (h : handle)
    (rest : list Node) : Prop :=
  match rest with
  | [] => True
  | n :: rest' =>
      match n with
      | BatchNorm _ _ _ m _ =>
          if on_shortcut g h then m = None else m = Some mom
      | _ => True
      end /\ bn_momentum_ok mom g (S h) rest'
  end%list.

(** ** Further observations on a graph *)

(** The handles a node reads. *)
Definition node_inputs (n : Node) : list handle :=
  match n with
  | Var _ _ => []
  | Convolution d _ _ _ _ _ _ _ _ | BatchNorm d _ _ _ _ | Activation d _
  | Pooling d _ _ _ _ _ | FullyConnected d _ _ => [d]
  | Plus l r => [l; r]
  | SoftmaxOutput d l _ _ _ _ => [d; l]
  end%list.

(** Every node of [g], the first of which sits at position [p], reads only
    handles below its own position. *)
Fixpoint closed_from (p : nat) (g : list Node) : bool :=
  match g with
  | [] => true
  | n :: g' =>
      forallb (fun h => Nat.ltb h p) (node_inputs n) && closed_from (S p) g'
  end%list.

(** The arguments of every convolution of [rest] (the nodes from handle
    [h] on): a 1x1x1 projection is given neither padding nor tuning hints;
    any other convolution is given a padding and the caller's hints; the two
    convolutions of the stem (handles below 7) are given [nb] as it came,
    those of the blocks its truth value as 0 or 1. *)
Fixpoint conv_arguments_ok (nb : Z) (ct : string) (ws : Z) (h : handle)
    (rest : list Node) : Prop :=
  match rest with
  | [] => True
  | n :: rest' =>
      match n with
      | Convolution _ _ _ _ pa b c w _ =>
          (if is_projection n
           then pa = None /\ c = None /\ w = None
           else pa <> None /\ c = Some ct /\ w = Some ws)
          /\ b = (if Nat.ltb h 7 then nb else if truthy nb then 1 else 0)
      | _ => True
      end /\ conv_arguments_ok nb ct ws (S h) rest'
  end%list.




(** Per convolution of [g] with a stride other than (1,1,1), in order: its
    kernel, its stride and its filters. *)
Definition strided (g : store) : list (triple * triple * Z) :=
  flat_map (fun n => match n with
                     | Convolution _ nf ke (st, sh, sw) _ _ _ _ _ =>
                         if (st =? 1) && (sh =? 1) && (sw =? 1) then []
                         else [(ke, (st, sh, sw), nf)]
                     | _ => []
                     end) g.

(** ** The shape of the generated names *)

Definition is_digit (a : ascii) : bool :=
  (Nat.leb 48 (nat_of_ascii a) && Nat.leb (nat_of_ascii a) 57)%bool.

Fixpoint all_digits (s : string) : bool :=
  match s with
  | EmptyString => true
  | String a s' => is_digit a && all_digits s'
  end.

(** A string that cannot continue a number: empty, or not starting with a
    digit. *)
Definition tail_ok (s : string) : bool :=
  match s with
  | EmptyString => true
  | String a _ => negb (is_digit a)
  end.

(** A name of a block: a prefix, the block counter, a suffix. *)
Definition block_name (c : nat) (sg : bool * string) : string :=
  (if fst sg then "comp_" else "shortcut_projection_") ++ fmt_d c ++ snd sg.

(** Prefix and suffix of the names a block gives, in creation order; the
    last two are those of the projection. *)
Definition block_signatures : list (bool * string) :=
  [ (true, "_conv_1_middle"); (true, "_spatbn_1_middle"); (true, "_conv_1");
    (true, "_spatbn_1");
    (true, "_conv_2_middle"); (true, "_spatbn_2_middle"); (true, "_conv_2");
    (true, "_spatbn_2");
    (false, ""); (false, "_spatbn") ]%list.

(** The names [create_r3d] gives outside the blocks. *)
Definition fixed_names : list string :=
  [ "data"; "conv1_middle"; "conv1_middle_spatbn_relu"; "conv1";
    "conv1_spatbn_relu"; "final_pool"; "final_fc"; "softmax_label";
    "softmax" ]%list.

(** ** Batch-norms, and the names the engine gives *)

(** The names of the batch-norm nodes of [g], in creation order. *)
Definition batch_norm_names (g : store) : list string :=
  flat_map (fun n => match n with
                     | BatchNorm _ _ _ _ name => [name]
                     | _ => []
                     end) g.




(** * Properties *)

Ltac norm_store :=
  rewrite ?length_app; cbn [List.length]; rewrite <- ?app_assoc;
  cbn [app]; rewrite <- ?Nat.add_assoc; cbn [Nat.add].

(** ** Running the monad *)

Lemma bind_ok {A B} (m : M A) (f : A -> M B) s a s' :
  m s = (Ok a, s') -> bind m f s = f a s'.
Proof. intros H. unfold bind. now rewrite H. Qed.

Lemma bind_raise {A B} (m : M A) (f : A -> M B) s e s' :
  m s = (Raise e, s') -> bind m f s = (Raise e, s').
Proof. intros H. unfold bind. now rewrite H. Qed.

Lemma emit_app n (s l : store) :
  emit n (s ++ l)%list
  = (Ok (List.length s + List.length l)%nat, (s ++ (l ++ [n]))%list).
Proof. unfold emit. now rewrite length_app, app_assoc. Qed.

(** ** The middle filters *)

Lemma scaled_nonpos (n d e : Z) : e <= 0 -> scaled n d e = (n * 2 ^ (- e), d).
Proof.
  intros He. unfold scaled. destruct (Z.leb_spec 0 e) as [H|H]; [|reflexivity].
  assert (e = 0) by lia. subst e. cbn. f_equal; lia.
Qed.

Lemma round_scaled_div (n d s : Z) :
  0 < d -> 0 <= s -> 0 <= n < 2 ^ 53 -> 2 ^ 52 <= (n * 2 ^ s) / d ->
  round_half_even (n * 2 ^ s) d / 2 ^ s = n / d.
Proof.
  intros Hd Hs Hn Hq.
  assert (HP : 0 < 2 ^ s) by (apply Z.pow_pos_nonneg; lia).
  set (P := 2 ^ s) in *. set (N := n * P) in *.
  assert (Hdiv : N / d / P = n / d).
  { rewrite Z.div_div by lia. unfold N. apply Z.div_mul_cancel_r; lia. }
  pose proof (Z.div_mod N d ltac:(lia)) as HN.
  pose proof (Z.mod_pos_bound N d Hd) as Hr.
  set (q := N / d) in *. set (r := N mod d) in *.
  assert (Hup : 2 * r >= d -> (q + 1) / P = q / P).
  { intros H2r.
    pose proof (Z.div_mod q P ltac:(lia)) as Hq'.
    pose proof (Z.mod_pos_bound q P HP) as Hm.
    destruct (Z.eq_dec (q mod P) (P - 1)) as [E|E].
    - exfalso.
      set (t := q / P + 1).
      assert (Et : q + 1 = P * t) by (unfold t; lia).
      assert (E1 : P * (d * t - n) = d - r) by (unfold N in HN; nia).
      assert (E2 : 1 <= d * t - n) by nia.
      assert (E3 : P <= d - r) by nia.
      assert (E4 : 2 * P <= d) by lia.
      assert (E5 : d * q <= N) by lia.
      assert (E6 : N < 2 ^ 53 * P) by (unfold N; nia).
      change (2 ^ 53) with (2 * 2 ^ 52) in E6.
      assert (E7 : 2 * P * 2 ^ 52 <= d * q) by (apply Z.mul_le_mono_nonneg; lia).
      lia.
    - symmetry. apply (Z.div_unique (q + 1) P (q / P) (q mod P + 1)); lia. }
  unfold round_half_even. fold q r.
  destruct (Z.ltb_spec (2 * r) d) as [H1|H1]; [exact Hdiv|].
  destruct (Z.ltb_spec d (2 * r)) as [H2|H2].
  - rewrite Hup by lia. exact Hdiv.
  - destruct (Z.even q); [exact Hdiv|]. rewrite Hup by lia. exact Hdiv.
Qed.

Lemma round_half_even_bounds (N D : Z) :
  0 < D -> N / D <= round_half_even N D <= N / D + 1.
Proof.
  intros HD. unfold round_half_even.
  destruct (2 * (N mod D) <? D); [lia|].
  destruct (D <? 2 * (N mod D)); [lia|].
  destruct (Z.even (N / D)); lia.
Qed.

Lemma ratio_exponent_small (n d : Z) :
  0 < d -> d <= n -> n < 2 ^ 53 ->
  - 53 <= ratio_exponent n d <= 0
  /\ 2 ^ 52 <= (n * 2 ^ (- ratio_exponent n d)) / d.
Proof.
  intros Hd Hdn Hn.
  assert (Hn0 : 0 < n) by lia.
  destruct (Z.log2_spec n Hn0) as [Ha1 Ha2].
  destruct (Z.log2_spec d Hd) as [Hb1 Hb2].
  pose proof (Z.log2_nonneg d) as Hb0.
  pose proof (Z.log2_le_mono d n Hdn) as Hab.
  assert (Ha : Z.log2 n < 53) by (apply Z.log2_lt_pow2; lia).
  set (a := Z.log2 n) in *. set (b := Z.log2 d) in *.
  unfold ratio_exponent. fold a b.
  rewrite scaled_nonpos by lia.
  replace (- (a - b - 52)) with (52 - a + b) by lia.
  destruct (Z.ltb_spec (n * 2 ^ (52 - a + b) / d) (2 ^ 52)) as [H|H].
  - rewrite Z.max_l by lia. split; [lia|].
    replace (- (a - b - 52 - 1)) with (53 - a + b) by lia.
    apply Z.div_le_lower_bound; [lia|].
    assert (E : 2 ^ a * 2 ^ (53 - a + b) = 2 ^ 52 * 2 ^ (b + 1)).
    { rewrite <- !Z.pow_add_r by lia. f_equal. lia. }
    assert (Hp : 0 < 2 ^ (53 - a + b)) by (apply Z.pow_pos_nonneg; lia).
    replace (Z.succ a) with (a + 1) in Ha2 by lia.
    replace (Z.succ b) with (b + 1) in Hb2 by lia.
    nia.
  - rewrite Z.max_l by lia. split; [lia|].
    replace (- (a - b - 52)) with (52 - a + b) by lia. exact H.
Qed.

Lemma round_ratio_trunc (n d : Z) :
  0 < d -> d <= n -> n < 2 ^ 53 ->
  overflows (round_ratio n d) = false
  /\ py_int (round_ratio n d) = n / d.
Proof.
  intros Hd Hdn Hn.
  destruct (ratio_exponent_small n d Hd Hdn Hn) as [He Hq].
  unfold round_ratio. remember (ratio_exponent n d) as e eqn:Ee. clear Ee.
  rewrite scaled_nonpos by lia.
  pose proof (round_scaled_div n d (- e) Hd ltac:(lia) ltac:(lia) Hq) as Hdiv.
  pose proof (round_half_even_bounds (n * 2 ^ (- e)) d Hd) as Hb.
  remember (round_half_even (n * 2 ^ (- e)) d) as m eqn:Em. clear Em.
  assert (Hm : 0 <= m) by lia.
  assert (Hnd : n / d < 2 ^ 53).
  { apply Z.div_lt_upper_bound; [lia|]. nia. }
  unfold overflows, py_int. cbn [mantissa exponent].
  destruct (Z.leb_spec 0 e) as [H0|H0].
  - assert (e = 0) by lia. subst e.
    change (2 ^ (- 0)) with 1 in Hdiv. rewrite Z.div_1_r in Hdiv.
    change (2 ^ 0) with 1. rewrite Z.mul_1_r, Hdiv. split; [|reflexivity].
    cbn [andb]. apply Z.leb_gt.
    assert (2 ^ 53 < 2 ^ 1024) by (apply Z.pow_lt_mono_r; lia). lia.
  - split; [reflexivity|].
    rewrite Z.quot_div_nonneg; [exact Hdiv|exact Hm|].
    apply Z.pow_pos_nonneg; lia.
Qed.

Lemma middle_filters_pure (i o : Z) (s : store) :
  middle_filters i o s = (middle_result i o, s).
Proof.
  unfold middle_result, middle_filters, py_div, bind, raise, ret.
  destruct (i * 3 * 3 + 3 * o =? 0); [reflexivity|].
  destruct (overflows _); reflexivity.
Qed.

Lemma middle_result_zero (i o : Z) :
  i * 3 * 3 + 3 * o = 0 -> middle_result i o = Raise ZeroDivisionError.
Proof.
  intros Hd. unfold middle_result, middle_filters, py_div. rewrite Hd.
  reflexivity.
Qed.

Lemma middle_result_cases (i o : Z) :
  (i * 9 + 3 * o = 0 /\ middle_result i o = Raise ZeroDivisionError)
  \/ (i * 9 + 3 * o <> 0
      /\ (middle_result i o = Raise OverflowError
          \/ exists m, middle_result i o = Ok m)).
Proof.
  unfold middle_result, middle_filters, py_div, bind, raise, ret.
  destruct (Z.eqb_spec (i * 3 * 3 + 3 * o) 0) as [E|E].
  - left. split; [lia|reflexivity].
  - right. split; [lia|].
    destruct (overflows _); cbn; [now left|right; eexists; reflexivity].
Qed.

(** Below [2 ^ 53] the rounding of the ratio does not show: the middle
    width is the integer quotient. *)
Lemma middle_result_exact (i o : Z) :
  0 < i -> 0 < o -> 3 * i * o * 9 < 2 ^ 53 ->
  middle_result i o = Ok ((3 * i * o * 9) / (i * 9 + 3 * o)).
Proof.
  intros Hi Ho Hn.
  assert (Hd : 0 < i * 9 + 3 * o) by lia.
  assert (Hdn : i * 9 + 3 * o <= 3 * i * o * 9) by nia.
  destruct (round_ratio_trunc _ _ Hd Hdn Hn) as [Hov Hint].
  unfold middle_result, middle_filters, py_div, bind, raise, ret.
  replace (3 * i * o * 3 * 3) with (3 * i * o * 9) by lia.
  replace (i * 3 * 3 + 3 * o) with (i * 9 + 3 * o) by lia.
  destruct (Z.eqb_spec (i * 9 + 3 * o) 0) as [E|_]; [lia|].
  rewrite !Z.abs_eq by lia. rewrite Hov. cbn [fst].
  rewrite !Z.sgn_pos by lia. f_equal.
  rewrite <- Hint. unfold py_int. cbn [mantissa exponent].
  now rewrite !Z.mul_1_l.
Qed.

Lemma add_spatial_temporal_conv_run self body i o stride (s : store) :
  middle_ok i o ->
  add_spatial_temporal_conv self body i o stride s
  = (Ok (set_comp_idx self (comp_idx self + 1), (List.length s + 3)%nat),
     (s ++ st_conv_nodes self body i o stride (List.length s))%list).
Proof.
  intros [m Hm]. unfold add_spatial_temporal_conv.
  rewrite (bind_ok _ _ s m s) by (now rewrite middle_filters_pure, Hm).
  destruct stride as [[st sh] sw].
  unfold bind, emit, ret, st_conv_nodes, middle_quot. rewrite Hm.
  cbn [fst snd comp_count comp_idx set_comp_idx bn_mom no_bias cudnn_tune
       workspace].
  norm_store. reflexivity.
Qed.

Lemma add_spatial_temporal_conv_raise self body i o stride (s : store) e :
  middle_result i o = Raise e ->
  add_spatial_temporal_conv self body i o stride s = (Raise e, s).
Proof.
  intros Hm. unfold add_spatial_temporal_conv.
  now rewrite (bind_raise _ _ s e s) by (now rewrite middle_filters_pure, Hm).
Qed.

Lemma add_r3d_block_run self data i o down sbn os (s : store) :
  middle_ok i o -> middle_ok o o ->
  add_r3d_block self data i o down sbn os s
  = (Ok (block_builder self, block_out i o down (List.length s)),
     (s ++ block_nodes self data i o down os (List.length s))%list).
Proof.
  intros Hd Hd2. unfold add_r3d_block.
  rewrite (bind_ok _ _ _ _ _
             (add_spatial_temporal_conv_run _ _ _ _ _ _ Hd)).
  unfold bind at 1 2. unfold emit at 1 2.
  rewrite (bind_ok _ _ _ _ _
             (add_spatial_temporal_conv_run _ _ _ _ _ _ Hd2)).
  unfold block_nodes, block_out, block_builder, needs_projection.
  destruct (negb (o =? i) || down);
    unfold bind, emit, ret, shortcut_nodes, set_comp_count;
    cbn [fst snd comp_count comp_idx set_comp_idx bn_mom no_bias cudnn_tune
         workspace st_conv_nodes];
    norm_store; reflexivity.
Qed.

Lemma add_r3d_block_ok_inv self data i o down sbn os (s : store) x s' :
  add_r3d_block self data i o down sbn os s = (Ok x, s') ->
  middle_ok i o /\ middle_ok o o.
Proof.
  intros H.
  destruct (middle_result i o) as [m1|e1] eqn:E1.
  - assert (Hd : middle_ok i o) by (now exists m1).
    split; [exact Hd|].
    destruct (middle_result o o) as [m2|e2] eqn:E2; [now exists m2|].
    unfold add_r3d_block in H.
    rewrite (bind_ok _ _ _ _ _
               (add_spatial_temporal_conv_run _ _ _ _ _ _ Hd)) in H.
    unfold bind at 1 2 in H. unfold emit at 1 2 in H.
    rewrite (bind_raise _ _ _ _ _
               (add_spatial_temporal_conv_raise _ _ _ _ _ _ _ E2)) in H.
    discriminate.
  - unfold add_r3d_block in H.
    rewrite (bind_raise _ _ _ _ _
               (add_spatial_temporal_conv_raise _ _ _ _ _ _ _ E1)) in H.
    discriminate.
Qed.

Section Frame.
Variable s0 : store.
Lemma framed_ret {A} (sh : A -> A) (a : A) :
  framed s0 sh (ret a) (ret (sh a)).
Proof. intros s1. reflexivity. Qed.

Lemma framed_raise {A} (sh : A -> A) (e : Exception) :
  framed s0 sh (raise e) (raise e).
Proof. intros s1. reflexivity. Qed.

Lemma framed_emit (n : Node) :
  framed s0 (Nat.add (List.length s0)) (emit n) (emit (shift_node (List.length s0) n)).
Proof.
  intros s1. unfold emit, reloc. cbn [fst snd map_result].
  rewrite length_app, length_map, map_app, app_assoc. reflexivity.
Qed.

Lemma framed_bind {A B} (shA : A -> A) (shB : B -> B) (m m' : M A)
    (f f' : A -> M B) :
  framed s0 shA m m' ->
  (forall a, framed s0 shB (f a) (f' (shA a))) ->
  framed s0 shB (bind m f) (bind m' f').
Proof.
  intros Hm Hf s1. unfold bind. rewrite Hm.
  destruct (m s1) as [[a|e] s1']; cbn [fst snd map_result].
  - apply Hf.
  - reflexivity.
Qed.

Lemma framed_middle_filters (i o : Z) :
  framed s0 (fun m => m) (middle_filters i o) (middle_filters i o).
Proof.
  intros s1. rewrite !middle_filters_pure.
  destruct (middle_result i o); reflexivity.
Qed.

Lemma framed_add_spatial_temporal_conv self body i o stride :
  framed s0 (shift_out (List.length s0))
    (add_spatial_temporal_conv self body i o stride)
    (add_spatial_temporal_conv self (List.length s0 + body)%nat i o stride).
Proof.
  unfold add_spatial_temporal_conv.
  eapply framed_bind; [apply framed_middle_filters|intros middle].
  destruct stride as [[st sh] sw].
  eapply framed_bind; [exact (framed_emit _)|intros h1].
  eapply framed_bind; [exact (framed_emit _)|intros h2].
  eapply framed_bind; [exact (framed_emit _)|intros h3].
  eapply framed_bind; [exact (framed_emit _)|intros h4].
  exact (framed_ret (shift_out (List.length s0)) _).
Qed.

Lemma framed_add_r3d_block self data i o down sbn os :
  framed s0 (shift_out (List.length s0))
    (add_r3d_block self data i o down sbn os)
    (add_r3d_block self (List.length s0 + data)%nat i o down sbn os).
Proof.
  unfold add_r3d_block.
  eapply framed_bind;
    [apply framed_add_spatial_temporal_conv|intros [b1 h1]].
  cbn [shift_out fst snd].
  eapply framed_bind; [exact (framed_emit _)|intros h2].
  eapply framed_bind; [exact (framed_emit _)|intros h3].
  eapply framed_bind;
    [apply framed_add_spatial_temporal_conv|intros [b2 h4]].
  cbn [shift_out fst snd].
  eapply framed_bind; [exact (framed_emit _)|intros h5].
  eapply framed_bind with (shA := Nat.add (List.length s0)).
  - destruct (negb (o =? i) || down).
    + eapply framed_bind; [exact (framed_emit _)|intros h6].
      exact (framed_emit _).
    + exact (framed_ret (Nat.add (List.length s0)) _).
  - intros h7.
    eapply framed_bind; [exact (framed_emit _)|intros h8].
    eapply framed_bind; [exact (framed_emit _)|intros h9].
    exact (framed_ret (shift_out (List.length s0)) _).
Qed.

Lemma framed_block_loop n : forall builder body i o,
  framed s0 (shift_out (List.length s0))
    (block_loop n builder body i o)
    (block_loop n builder (List.length s0 + body)%nat i o).
Proof.
  induction n as [|n IH]; intros builder body i o; cbn [block_loop].
  - exact (framed_ret (shift_out (List.length s0)) _).
  - eapply framed_bind; [apply framed_add_r3d_block|intros [b h]].
    cbn [shift_out fst snd]. apply IH.
Qed.

Lemma framed_create_r3d nc nb depth fsk ftk mom ct ws :
  framed s0 (Nat.add (List.length s0))
    (create_r3d nc nb depth fsk ftk mom ct ws)
    (create_r3d nc nb depth fsk ftk mom ct ws).
Proof.
  unfold create_r3d.
  do 7 (eapply framed_bind; [exact (framed_emit _)|intros ?]).
  eapply framed_bind with (shA := fun cfg => cfg).
  - destruct (BLOCK_CONFIG depth);
      [exact (framed_ret _ _)|apply framed_raise].
  - intros [[[n1 n2] n3] n4].
    eapply framed_bind; [apply framed_block_loop|intros [b1 h1]].
    cbn [shift_out fst snd].
    eapply framed_bind; [apply framed_add_r3d_block|intros [b2 h2]].
    cbn [shift_out fst snd].
    eapply framed_bind; [apply framed_block_loop|intros [b3 h3]].
    cbn [shift_out fst snd].
    eapply framed_bind; [apply framed_add_r3d_block|intros [b4 h4]].
    cbn [shift_out fst snd].
    eapply framed_bind; [apply framed_block_loop|intros [b5 h5]].
    cbn [shift_out fst snd].
    eapply framed_bind; [apply framed_add_r3d_block|intros [b6 h6]].
    cbn [shift_out fst snd].
    eapply framed_bind; [apply framed_block_loop|intros [b7 h7]].
    cbn [shift_out fst snd].
    do 4 (eapply framed_bind; [exact (framed_emit _)|intros ?]).
    exact (framed_ret (Nat.add (List.length s0)) _).
Qed.
End Frame.

Lemma BLOCK_CONFIG_None (depth : Z) :
  depth <> 10 -> depth <> 16 -> depth <> 18 -> depth <> 26 -> depth <> 34 ->
  BLOCK_CONFIG depth = None.
Proof.
  intros H1 H2 H3 H4 H5. unfold BLOCK_CONFIG.
  repeat match goal with
         | |- context [?a =? ?b] =>
             destruct (Z.eqb_spec a b); [contradiction|]
         end.
  reflexivity.
Qed.

Lemma BLOCK_CONFIG_Some (depth : Z) cfg :
  BLOCK_CONFIG depth = Some cfg ->
  depth = 10 \/ depth = 16 \/ depth = 18 \/ depth = 26 \/ depth = 34.
Proof.
  unfold BLOCK_CONFIG.
  repeat match goal with
         | |- context [?a =? ?b] =>
             destruct (Z.eqb_spec a b); [intros _; tauto|]
         end.
  discriminate.
Qed.

Ltac supported_depths H :=
  destruct (BLOCK_CONFIG_Some _ _ H) as [-> | [-> | [-> | [-> | ->]]]];
  cbn in H; injection H as <- <- <- <-.

(** ** C1: an unsupported depth *)

(** C1 (as stated, refuted): at depth 20 with the default arguments the call
    does fail with [KeyError 20], but it does not fail with an empty log: the
    seven stem nodes have been allocated by then. *)
Lemma create_r3d_unsupported_depth_not_fail_fast :
  fst (create_r3d 400 0 20 7 1 (9 # 10)%Q "off" 512 []) = Raise (KeyError 20)
  /\ List.length (snd (create_r3d 400 0 20 7 1 (9 # 10)%Q "off" 512 [])) = 7%nat
  /\ ~ (exists e, create_r3d 400 0 20 7 1 (9 # 10)%Q "off" 512 []
                  = (Raise e, [])).
Proof.
  split; [reflexivity|]. split; [reflexivity|].
  intros [e H]. apply (f_equal snd) in H. discriminate H.
Qed.

(** C1 (amended): for every model depth not in {10, 16, 18, 26, 34},
    [create_r3d] fails with a [KeyError] that carries the invalid depth; the
    failure is raised by the table lookup, after the seven stem nodes have
    been allocated and before the builder or any node of a residual block
    or of the head exists. *)
Theorem create_r3d_unsupported_depth
    (nc nb depth fsk ftk : Z) (mom : Q) (ct : string) (ws : Z) (s : store) :
  depth <> 10 -> depth <> 16 -> depth <> 18 -> depth <> 26 -> depth <> 34 ->
  create_r3d nc nb depth fsk ftk mom ct ws s
  = (Raise (KeyError depth),
     (s ++ stem_nodes nb mom ct ws (List.length s))%list)
  /\ residual_blocks (stem_nodes nb mom ct ws (List.length s)) = 0%nat.
Proof.
  intros H1 H2 H3 H4 H5. split; [|reflexivity].
  unfold create_r3d, bind, emit, stem_nodes.
  rewrite (BLOCK_CONFIG_None depth H1 H2 H3 H4 H5).
  unfold raise. norm_store. reflexivity.
Qed.

Lemma create_r3d_unsupported_depth_witness :
  create_r3d 400 0 20 7 1 (9 # 10)%Q "off" 512 []
  = (Raise (KeyError 20), ([] ++ stem_nodes 0 (9 # 10)%Q "off" 512 0)%list)
  /\ residual_blocks (stem_nodes 0 (9 # 10)%Q "off" 512 0) = 0%nat.
Proof.
  apply (create_r3d_unsupported_depth 400 0 20 7 1 (9 # 10)%Q "off" 512 []);
    lia.
Defined.

Lemma nth_error_app_plus {A} (s l : list A) (j : nat) :
  nth_error (s ++ l) (List.length s + j) = nth_error l j.
Proof.
  rewrite nth_error_app2 by lia. f_equal. lia.
Qed.

Lemma nth_error_app_length {A} (s l : list A) :
  nth_error (s ++ l) (List.length s) = nth_error l 0.
Proof.
  rewrite nth_error_app2 by lia. now rewrite Nat.sub_diag.
Qed.

Lemma skipn_app_length {A} (s l : list A) :
  skipn (List.length s) (s ++ l) = l.
Proof.
  rewrite skipn_app, skipn_all, Nat.sub_diag. reflexivity.
Qed.

(** ** C2: the middle filters *)

(** C2 (as stated, refuted): for 2^53 input and 1 output channels the ratio
    27 * 2^53 / (9 * 2^53 + 3) lies just below 3 and rounds to the double
    3.0, so the middle width is 3, while the floor of the ratio is 2. *)
Lemma middle_filters_rounds_up :
  middle_filters (2 ^ 53) 1 [] = (Ok 3, [])
  /\ (3 * 2 ^ 53 * 1 * 9) / (2 ^ 53 * 9 + 3 * 1) = 2
  /\ 0 < 2 ^ 53 /\ 0 < 1.
Proof. repeat split; vm_compute; reflexivity. Qed.

(** C2 (amended): for positive channel counts with [27 * in * out < 2^53]
    the middle width is the floor of 3*in*out*9 / (in*9 + 3*out): the
    integer [m] with [m*d <= n < (m+1)*d], obtained by one truncation toward
    zero of the ratio; it is the filter count of the 1x3x3 convolution the
    decomposed convolution allocates; for 64 and 64 it is 144. *)
Theorem middle_filters_formula (i o : Z) (s : store) self body stride :
  0 < i -> 0 < o -> 3 * i * o * 9 < 2 ^ 53 ->
  exists m,
    middle_filters i o s = (Ok m, s)
    /\ m = Z.quot (3 * i * o * 9) (i * 9 + 3 * o)
    /\ m = (3 * i * o * 9) / (i * 9 + 3 * o)
    /\ m * (i * 9 + 3 * o) <= 3 * i * o * 9 < (m + 1) * (i * 9 + 3 * o)
    /\ (i = 64 -> o = 64 -> m = 144)
    /\ nth_error (snd (add_spatial_temporal_conv self body i o stride s))
         (List.length s)
       = Some (Convolution body m (1, 3, 3)
                 (1, snd (fst stride), snd stride) (Some (0, 1, 1))
                 (no_bias self) (Some (cudnn_tune self))
                 (Some (workspace self))
                 ("comp_" ++ fmt_d (comp_count self) ++ "_conv_"
                  ++ fmt_d (comp_idx self + 1) ++ "_middle")).
Proof.
  intros Hi Ho Hb.
  assert (Hd : 0 < i * 9 + 3 * o) by lia.
  assert (Hn : 0 <= 3 * i * o * 9) by nia.
  pose proof (middle_result_exact i o Hi Ho Hb) as Hm.
  exists ((3 * i * o * 9) / (i * 9 + 3 * o)).
  rewrite middle_filters_pure, Hm.
  rewrite Z.quot_div_nonneg by lia.
  pose proof (Z.mul_div_le (3 * i * o * 9) (i * 9 + 3 * o) Hd) as Hle.
  pose proof (Z.mul_succ_div_gt (3 * i * o * 9) (i * 9 + 3 * o) Hd) as Hgt.
  split; [reflexivity|]. split; [reflexivity|]. split; [reflexivity|].
  split; [lia|]. split; [intros -> ->; reflexivity|].
  rewrite (add_spatial_temporal_conv_run self body i o stride s)
    by (eexists; exact Hm).
  cbn [snd]. rewrite nth_error_app_length.
  unfold st_conv_nodes, middle_quot. rewrite Hm. reflexivity.
Qed.

Lemma middle_filters_formula_witness :
  exists m,
    middle_filters 64 64 [] = (Ok m, [])
    /\ m = Z.quot (3 * 64 * 64 * 9) (64 * 9 + 3 * 64)
    /\ m = (3 * 64 * 64 * 9) / (64 * 9 + 3 * 64)
    /\ m * (64 * 9 + 3 * 64) <= 3 * 64 * 64 * 9
       < (m + 1) * (64 * 9 + 3 * 64)
    /\ (64 = 64 -> 64 = 64 -> m = 144)
    /\ nth_error
         (snd (add_spatial_temporal_conv
                 (ModelBuilder_init 0 (9 # 10)%Q "off" 512) 0 64 64
                 (1, 1, 1) []))
         (@List.length Node [])
       = Some (Convolution 0 m (1, 3, 3)
                 (1, snd (fst (1, 1, 1)), snd (1, 1, 1)) (Some (0, 1, 1))
                 (no_bias (ModelBuilder_init 0 (9 # 10)%Q "off" 512))
                 (Some (cudnn_tune (ModelBuilder_init 0 (9 # 10)%Q "off" 512)))
                 (Some (workspace (ModelBuilder_init 0 (9 # 10)%Q "off" 512)))
                 ("comp_"
                  ++ fmt_d (comp_count
                              (ModelBuilder_init 0 (9 # 10)%Q "off" 512))
                  ++ "_conv_"
                  ++ fmt_d (comp_idx
                              (ModelBuilder_init 0 (9 # 10)%Q "off" 512) + 1)
                  ++ "_middle")).
Proof.
  apply (middle_filters_formula 64 64 []
           (ModelBuilder_init 0 (9 # 10)%Q "off" 512) 0 (1, 1, 1));
    [lia|lia|].
  vm_compute. reflexivity.
Defined.

(** ** C4, C5, C8: one residual block *)

Lemma add_spatial_temporal_conv_ok_inv self body i o stride (s : store) x s' :
  add_spatial_temporal_conv self body i o stride s = (Ok x, s') ->
  middle_ok i o.
Proof.
  intros H. destruct (middle_result i o) as [m|e] eqn:E; [now exists m|].
  rewrite (add_spatial_temporal_conv_raise _ _ _ _ _ _ _ E) in H.
  discriminate.
Qed.

(** C4 (as stated, refuted): a builder made with the default [no_bias = 0]
    projects the shortcut of a 64 -> 128 downsampling block through a 1x1x1
    convolution whose [no_bias] argument is 0: the convolution has a bias. *)
Lemma shortcut_projection_has_bias :
  nth_error
    (snd (add_r3d_block (ModelBuilder_init 0 (9 # 10)%Q "off" 512) 0
            64 128 true true false [Var "data" "float32"])) 12
  = Some (Convolution 0 128 (1, 1, 1) (2, 2, 2) None 0 None None
            "shortcut_projection_0")
  /\ truthy 0 = false.
Proof. split; reflexivity. Qed.

(** C4 (amended): a block allocates a shortcut projection if and only if
    the channel count changes or downsampling is requested.  The projection
    is a 1x1x1 convolution of the unmodified block input with the main
    path's stride and the builder's [no_bias] flag (no bias when the flag is
    set), followed by a batch-norm, and the addition takes that batch-norm;
    otherwise the addition takes the untouched input node. *)
Theorem shortcut_projection_iff self data i o down sbn os (s : store) x s' :
  add_r3d_block self data i o down sbn os s = (Ok x, s') ->
  let new := skipn (List.length s) s' in
  let base := List.length s in
  existsb is_projection new = (negb (o =? i) || down)
  /\ (negb (o =? i) || down = true ->
      nth_error new 11
      = Some (Convolution data o (1, 1, 1) (use_striding down os) None
                (no_bias self) None None
                ("shortcut_projection_" ++ fmt_d (comp_count self)))
      /\ nth_error new 12
         = Some (BatchNorm (base + 11)%nat false eps_1e_3 None
                   ("shortcut_projection_" ++ fmt_d (comp_count self)
                    ++ "_spatbn"))
      /\ nth_error new 13 = Some (Plus (base + 12)%nat (base + 10)%nat))
  /\ (negb (o =? i) || down = false ->
      nth_error new 11 = Some (Plus data (base + 10)%nat)).
Proof.
  intros H new base.
  destruct (add_r3d_block_ok_inv _ _ _ _ _ _ _ _ _ _ H) as [Hd Ho].
  rewrite (add_r3d_block_run _ _ _ _ _ sbn os s Hd Ho) in H.
  injection H as _ <-.
  subst new base. rewrite skipn_app_length.
  unfold block_nodes, needs_projection.
  destruct (use_striding down os) as [[t h] w] eqn:Hs.
  destruct (negb (o =? i) || down); cbn; (split; [reflexivity|]);
    split; intros; try discriminate; repeat split; reflexivity.
Qed.

Lemma shortcut_projection_iff_witness :
  let s := [Var "data" "float32"] in
  let self := ModelBuilder_init 1 (9 # 10)%Q "off" 512 in
  let s' := snd (add_r3d_block self 0 64 128 true true false s) in
  let new := skipn (List.length s) s' in
  let base := List.length s in
  existsb is_projection new = (negb (128 =? 64) || true)
  /\ (negb (128 =? 64) || true = true ->
      nth_error new 11
      = Some (Convolution 0 128 (1, 1, 1) (use_striding true false) None
                (no_bias self) None None
                ("shortcut_projection_" ++ fmt_d (comp_count self)))
      /\ nth_error new 12
         = Some (BatchNorm (base + 11)%nat false eps_1e_3 None
                   ("shortcut_projection_" ++ fmt_d (comp_count self)
                    ++ "_spatbn"))
      /\ nth_error new 13 = Some (Plus (base + 12)%nat (base + 10)%nat))
  /\ (negb (128 =? 64) || true = false ->
      nth_error new 11 = Some (Plus 0%nat (base + 10)%nat)).
Proof.
  exact (shortcut_projection_iff
           (ModelBuilder_init 1 (9 # 10)%Q "off" 512) 0 64 128 true true
           false [Var "data" "float32"] _ _ eq_refl).
Defined.

(** C5: a block's stride is (1,1,1) without downsampling, (1,2,2) with
    spatial-only downsampling and (2,2,2) otherwise; the decomposed
    convolution gives its 1x3x3 convolution the stride (1, strideH, strideW)
    and its 3x1x1 convolution the stride (strideT, 1, 1), in the block as
    in any other call. *)
Theorem stride_selection self data i o down sbn os (s : store) x s'
    self2 body i2 o2 st sh sw (s2 : store) y s2' :
  add_r3d_block self data i o down sbn os s = (Ok x, s') ->
  add_spatial_temporal_conv self2 body i2 o2 (st, sh, sw) s2 = (Ok y, s2') ->
  (exists t h w,
      (down = false -> (t, h, w) = (1, 1, 1))
      /\ (down = true -> os = true -> (t, h, w) = (1, 2, 2))
      /\ (down = true -> os = false -> (t, h, w) = (2, 2, 2))
      /\ nth_error s' (List.length s)
         = Some (Convolution data (middle_quot i o) (1, 3, 3) (1, h, w)
                   (Some (0, 1, 1)) (no_bias self) (Some (cudnn_tune self))
                   (Some (workspace self))
                   ("comp_" ++ fmt_d (comp_count self) ++ "_conv_1_middle"))
      /\ nth_error s' (List.length s + 3)
         = Some (Convolution (List.length s + 2)%nat o (3, 1, 1) (t, 1, 1)
                   (Some (1, 0, 0)) (no_bias self) (Some (cudnn_tune self))
                   (Some (workspace self))
                   ("comp_" ++ fmt_d (comp_count self) ++ "_conv_1")))
  /\ s2'
     = (s2 ++
        [ Convolution body (middle_quot i2 o2) (1, 3, 3) (1, sh, sw)
            (Some (0, 1, 1)) (no_bias self2) (Some (cudnn_tune self2))
            (Some (workspace self2))
            ("comp_" ++ fmt_d (comp_count self2) ++ "_conv_"
             ++ fmt_d (comp_idx self2 + 1) ++ "_middle");
          BatchNorm (List.length s2) false eps_1e_3 (Some (bn_mom self2))
            ("comp_" ++ fmt_d (comp_count self2) ++ "_spatbn_"
             ++ fmt_d (comp_idx self2 + 1) ++ "_middle");
          Activation (List.length s2 + 1)%nat "relu";
          Convolution (List.length s2 + 2)%nat o2 (3, 1, 1) (st, 1, 1)
            (Some (1, 0, 0)) (no_bias self2) (Some (cudnn_tune self2))
            (Some (workspace self2))
            ("comp_" ++ fmt_d (comp_count self2) ++ "_conv_"
             ++ fmt_d (comp_idx self2 + 1)) ])%list.
Proof.
  intros H H2. split.
  - destruct (add_r3d_block_ok_inv _ _ _ _ _ _ _ _ _ _ H) as [Hd Ho].
    rewrite (add_r3d_block_run _ _ _ _ _ sbn os s Hd Ho) in H.
    injection H as _ <-.
    destruct (use_striding down os) as [[t h] w] eqn:Hs.
    exists t, h, w.
    rewrite nth_error_app_plus.
    rewrite nth_error_app_length.
    unfold block_nodes. rewrite Hs.
    split; [intros ->; cbn in Hs; congruence|].
    split; [intros -> ->; cbn in Hs; congruence|].
    split; [intros -> ->; cbn in Hs; congruence|].
    split; reflexivity.
  - pose proof (add_spatial_temporal_conv_ok_inv _ _ _ _ _ _ _ _ H2) as Hd.
    rewrite (add_spatial_temporal_conv_run _ _ _ _ _ s2 Hd) in H2.
    injection H2 as _ <-. reflexivity.
Qed.

(** C8: [spatial_batch_norm] is never read: whatever its value the call has
    the same outcome (node returned, builder left, nodes allocated, or
    exception), and a block that returns has allocated its batch-norms all
    the same: the four of the main path and, when the shortcut is
    projected, that of the projection. *)
Theorem spatial_batch_norm_unused self data i o down os (sbn1 sbn2 : bool)
    (s : store) :
  add_r3d_block self data i o down sbn1 os s
  = add_r3d_block self data i o down sbn2 os s
  /\ forall x s',
      add_r3d_block self data i o down sbn1 os s = (Ok x, s') ->
      batch_norm_names (skipn (List.length s) s')
      = List.app
          [ "comp_" ++ fmt_d (comp_count self) ++ "_spatbn_1_middle";
            "comp_" ++ fmt_d (comp_count self) ++ "_spatbn_1";
            "comp_" ++ fmt_d (comp_count self) ++ "_spatbn_2_middle";
            "comp_" ++ fmt_d (comp_count self) ++ "_spatbn_2" ]
          (if negb (o =? i) || down
           then [ "shortcut_projection_" ++ fmt_d (comp_count self)
                  ++ "_spatbn" ]
           else []).
Proof.
  split; [reflexivity|]. intros x s' H.
  destruct (add_r3d_block_ok_inv _ _ _ _ _ _ _ _ _ _ H) as [Hd Ho].
  rewrite (add_r3d_block_run _ _ _ _ _ sbn1 os s Hd Ho) in H.
  injection H as _ <-. rewrite skipn_app_length.
  unfold block_nodes, needs_projection.
  destruct (negb (o =? i) || down); reflexivity.
Qed.

Lemma spatial_batch_norm_unused_witness :
  add_r3d_block (ModelBuilder_init 0 (9 # 10)%Q "off" 512) 0 64 128 true
    false false [Var "data" "float32"]
  = add_r3d_block (ModelBuilder_init 0 (9 # 10)%Q "off" 512) 0 64 128 true
      true false [Var "data" "float32"]
  /\ batch_norm_names
       (skipn (List.length [Var "data" "float32"])
          (snd (add_r3d_block (ModelBuilder_init 0 (9 # 10)%Q "off" 512) 0
                  64 128 true false false [Var "data" "float32"])))
     = [ "comp_0_spatbn_1_middle"; "comp_0_spatbn_1";
         "comp_0_spatbn_2_middle"; "comp_0_spatbn_2";
         "shortcut_projection_0_spatbn" ]%list.
Proof.
  destruct (spatial_batch_norm_unused
              (ModelBuilder_init 0 (9 # 10)%Q "off" 512) 0 64 128 true false
              false true [Var "data" "float32"]) as [E H].
  split; [exact E|].
  exact (H _ _ eq_refl).
Defined.

Lemma stride_selection_witness :
  let self := ModelBuilder_init 0 (9 # 10)%Q "off" 512 in
  let s := [Var "data" "float32"] in
  (exists t h w,
      (true = false -> (t, h, w) = (1, 1, 1))
      /\ (true = true -> false = true -> (t, h, w) = (1, 2, 2))
      /\ (true = true -> false = false -> (t, h, w) = (2, 2, 2))
      /\ nth_error (snd (add_r3d_block self 0 64 128 true true false s))
           (List.length s)
         = Some (Convolution 0 (middle_quot 64 128) (1, 3, 3) (1, h, w)
                   (Some (0, 1, 1)) (no_bias self) (Some (cudnn_tune self))
                   (Some (workspace self))
                   ("comp_" ++ fmt_d (comp_count self) ++ "_conv_1_middle"))
      /\ nth_error (snd (add_r3d_block self 0 64 128 true true false s))
           (List.length s + 3)
         = Some (Convolution (List.length s + 2)%nat 128 (3, 1, 1) (t, 1, 1)
                   (Some (1, 0, 0)) (no_bias self) (Some (cudnn_tune self))
                   (Some (workspace self))
                   ("comp_" ++ fmt_d (comp_count self) ++ "_conv_1")))
  /\ snd (add_spatial_temporal_conv self 0 64 128 (2, 2, 2) s)
     = (s ++
        [ Convolution 0 (middle_quot 64 128) (1, 3, 3) (1, 2, 2)
            (Some (0, 1, 1)) (no_bias self) (Some (cudnn_tune self))
            (Some (workspace self))
            ("comp_" ++ fmt_d (comp_count self) ++ "_conv_"
             ++ fmt_d (comp_idx self + 1) ++ "_middle");
          BatchNorm (List.length s) false eps_1e_3 (Some (bn_mom self))
            ("comp_" ++ fmt_d (comp_count self) ++ "_spatbn_"
             ++ fmt_d (comp_idx self + 1) ++ "_middle");
          Activation (List.length s + 1)%nat "relu";
          Convolution (List.length s + 2)%nat 128 (3, 1, 1) (2, 1, 1)
            (Some (1, 0, 0)) (no_bias self) (Some (cudnn_tune self))
            (Some (workspace self))
            ("comp_" ++ fmt_d (comp_count self) ++ "_conv_"
             ++ fmt_d (comp_idx self + 1)) ])%list.
Proof.
  exact (stride_selection
           (ModelBuilder_init 0 (9 # 10)%Q "off" 512) 0 64 128 true true
           false [Var "data" "float32"] _ _
           (ModelBuilder_init 0 (9 # 10)%Q "off" 512) 0 64 128 2 2 2
           [Var "data" "float32"] _ _ eq_refl eq_refl).
Defined.

Lemma nodupb_NoDup (l : list string) : nodupb l = true -> NoDup l.
Proof.
  induction l as [|x l IH]; cbn [nodupb]; intros H.
  - constructor.
  - apply andb_prop in H. destruct H as [Hx Hl].
    constructor; [|now apply IH].
    intros Hin. apply negb_true_iff in Hx.
    assert (existsb (String.eqb x) l = true) as E.
    { apply existsb_exists. exists x. split; [assumption|].
      apply String.eqb_refl. }
    congruence.
Qed.

Lemma bn_momentum_ok_nth mom g : forall rest h j d fg e m name,
  bn_momentum_ok mom g h rest ->
  nth_error rest j = Some (BatchNorm d fg e m name) ->
  if on_shortcut g (h + j) then m = None else m = Some mom.
Proof.
  induction rest as [|n rest IH]; intros h j d fg e m name Hok Hj.
  - destruct j; discriminate.
  - destruct Hok as [Hn Hrest]. destruct j as [|j]; cbn in Hj.
    + injection Hj as ->. rewrite Nat.add_0_r. exact Hn.
    + replace (h + S j)%nat with (S h + j)%nat by lia.
      eapply IH; eassumption.
Qed.

(** ** C3, C6, C9, C10: the assembled graph

    [create_r3d] run on the empty log.  The supported depths are five, and the
    graph of each is computed, with the other arguments left symbolic. *)

(** C3: at every depth of the table [create_r3d] succeeds and its graph has
    n1+n2+n3+n4 residual blocks; at depth 18 these are eight blocks, of
    widths 64->64, 64->64, 64->128, 128->128, 128->256, 256->256, 256->512
    and 512->512 in block order. *)
Theorem create_r3d_residual_blocks
    (nc nb depth fsk ftk : Z) (mom : Q) (ct : string) (ws : Z)
    (n1 n2 n3 n4 : Z) :
  BLOCK_CONFIG depth = Some (n1, n2, n3, n4) ->
  exists out g,
    create_r3d nc nb depth fsk ftk mom ct ws [] = (Ok out, g)
    /\ Z.of_nat (residual_blocks g) = n1 + n2 + n3 + n4
    /\ (depth = 18 ->
        residual_blocks g = 8%nat
        /\ block_widths g
           = [ (Some 64, Some 64); (Some 64, Some 64);
               (Some 64, Some 128); (Some 128, Some 128);
               (Some 128, Some 256); (Some 256, Some 256);
               (Some 256, Some 512); (Some 512, Some 512) ]%list).
Proof.
  intros H.
  supported_depths H;
    eexists; eexists;
    (split; [vm_compute; reflexivity|]);
    (split; [vm_compute; reflexivity|]);
    intros E; try discriminate E;
    split; vm_compute; reflexivity.
Qed.

Lemma create_r3d_residual_blocks_witness :
  exists out g,
    create_r3d 400 0 18 7 1 (9 # 10)%Q "off" 512 [] = (Ok out, g)
    /\ Z.of_nat (residual_blocks g) = 2 + 2 + 2 + 2
    /\ (18 = 18 ->
        residual_blocks g = 8%nat
        /\ block_widths g
           = [ (Some 64, Some 64); (Some 64, Some 64);
               (Some 64, Some 128); (Some 128, Some 128);
               (Some 128, Some 256); (Some 256, Some 256);
               (Some 256, Some 512); (Some 512, Some 512) ]%list).
Proof.
  exact (create_r3d_residual_blocks 400 0 18 7 1 (9 # 10)%Q "off" 512
           2 2 2 2 eq_refl).
Defined.

(** C6: at every supported depth and for all other arguments, the names
    the source gives the nodes of one graph are pairwise distinct. *)
Theorem create_r3d_names_distinct
    (nc nb depth fsk ftk : Z) (mom : Q) (ct : string) (ws : Z)
    (n1 n2 n3 n4 : Z) :
  BLOCK_CONFIG depth = Some (n1, n2, n3, n4) ->
  NoDup (names (snd (create_r3d nc nb depth fsk ftk mom ct ws []))).
Proof.
  intros H. apply nodupb_NoDup.
  supported_depths H; vm_compute; reflexivity.
Qed.

Lemma create_r3d_names_distinct_witness :
  NoDup (names (snd (create_r3d 400 0 34 7 1 (9 # 10)%Q "off" 512 []))).
Proof.
  exact (create_r3d_names_distinct 400 0 34 7 1 (9 # 10)%Q "off" 512
           3 4 6 3 eq_refl).
Defined.

(** C9: in the graph of every supported depth a batch-norm is given the
    caller's [bn_mom] as momentum, except the batch-norm of a shortcut
    projection (the shortcut operand of an addition), which is given no
    momentum at all and so runs with the engine's default; there are three of
    those. *)
Theorem shortcut_batchnorm_momentum
    (nc nb depth fsk ftk : Z) (mom : Q) (ct : string) (ws : Z)
    (n1 n2 n3 n4 : Z) (h : handle) d fg e m name :
  BLOCK_CONFIG depth = Some (n1, n2, n3, n4) ->
  let g := snd (create_r3d nc nb depth fsk ftk mom ct ws []) in
  nth_error g h = Some (BatchNorm d fg e m name) ->
  (if on_shortcut g h then m = None else m = Some mom)
  /\ List.length
       (filter (fun n => match n with
                         | BatchNorm _ _ _ None _ => true
                         | _ => false
                         end) g) = 3%nat.
Proof.
  intros H g Hh. split.
  - apply (bn_momentum_ok_nth mom g g 0 h d fg e m name); [|exact Hh].
    subst g. clear Hh.
    supported_depths H; vm_compute; repeat split.
  - subst g. clear Hh. supported_depths H; vm_compute; reflexivity.
Qed.

Lemma shortcut_batchnorm_momentum_witness :
  let g := snd (create_r3d 400 0 10 7 1 (1 # 2)%Q "off" 512 []) in
  nth_error g 32
  = Some (BatchNorm 31 false eps_1e_3 None "shortcut_projection_1_spatbn")
  /\ (if on_shortcut g 32 then @None Q = None else None = Some (1 # 2)%Q)
  /\ List.length
       (filter (fun n => match n with
                         | BatchNorm _ _ _ None _ => true
                         | _ => false
                         end) g) = 3%nat.
Proof.
  intros g.
  assert (Hh : nth_error g 32
               = Some (BatchNorm 31 false eps_1e_3 None
                         "shortcut_projection_1_spatbn"))
    by (vm_compute; reflexivity).
  split; [exact Hh|].
  exact (shortcut_batchnorm_momentum 400 0 10 7 1 (1 # 2)%Q "off" 512
           1 1 1 1 32 31 false eps_1e_3 None "shortcut_projection_1_spatbn"
           eq_refl Hh).
Defined.

(** C10: the table, and the number of residual blocks of the graphs of
    depths 10, 16, 26 and 34. *)
Theorem block_config_table
    (nc nb fsk ftk : Z) (mom : Q) (ct : string) (ws : Z) :
  BLOCK_CONFIG 10 = Some (1, 1, 1, 1)
  /\ BLOCK_CONFIG 16 = Some (2, 2, 2, 1)
  /\ BLOCK_CONFIG 18 = Some (2, 2, 2, 2)
  /\ BLOCK_CONFIG 26 = Some (2, 3, 4, 3)
  /\ BLOCK_CONFIG 34 = Some (3, 4, 6, 3)
  /\ residual_blocks (snd (create_r3d nc nb 10 fsk ftk mom ct ws [])) = 4%nat
  /\ residual_blocks (snd (create_r3d nc nb 16 fsk ftk mom ct ws [])) = 7%nat
  /\ residual_blocks (snd (create_r3d nc nb 26 fsk ftk mom ct ws [])) = 12%nat
  /\ residual_blocks (snd (create_r3d nc nb 34 fsk ftk mom ct ws [])) = 16%nat.
Proof.
  repeat split; vm_compute; reflexivity.
Qed.

(** ** Relocation of the whole graph *)




(** On any log, [create_r3d] appends the graph it builds on the empty log,
    relocated behind what the log already holds. *)
Lemma create_r3d_reloc nc nb depth fsk ftk mom ct ws (s0 : store) :
  create_r3d nc nb depth fsk ftk mom ct ws s0
  = (map_result (Nat.add (List.length s0))
       (fst (create_r3d nc nb depth fsk ftk mom ct ws [])),
     (s0 ++ map (shift_node (List.length s0))
              (snd (create_r3d nc nb depth fsk ftk mom ct ws [])))%list).
Proof.
  pose proof (framed_create_r3d s0 nc nb depth fsk ftk mom ct ws []) as H.
  unfold reloc in H. cbn [map] in H. rewrite app_nil_r in H. exact H.
Qed.

(** * Further properties of the builder *)

(** ** The decomposed convolution and the block, case by case *)

(** X1: the decomposed convolution divides before it allocates.  When it
    raises [ZeroDivisionError], [9*in + 3*out] is 0, and when it raises
    [OverflowError] it is not; in both cases the log is as it was.  When it
    returns, [9*in + 3*out] is not 0, it has allocated exactly four nodes
    and returns the last one, and the builder differs in [comp_idx] only,
    one higher.  It raises no [KeyError]. *)
Theorem add_spatial_temporal_conv_outcome self body i o stride (s : store)
    r s' :
  add_spatial_temporal_conv self body i o stride s = (r, s') ->
  match r with
  | Raise ZeroDivisionError => s' = s /\ i * 9 + 3 * o = 0
  | Raise OverflowError => s' = s /\ i * 9 + 3 * o <> 0
  | Raise (KeyError _) => False
  | Ok (self', out) =>
      i * 9 + 3 * o <> 0
      /\ (exists n1 n2 n3 n4, s' = (s ++ [n1; n2; n3; n4])%list)
      /\ out = (List.length s + 3)%nat
      /\ self' = mkBuilder (comp_count self) (comp_idx self + 1)
                   (bn_mom self) (no_bias self) (cudnn_tune self)
                   (workspace self)
  end.
Proof.
  intros H.
  destruct (middle_result_cases i o) as [[Hd E]|[Hd [E|[m E]]]].
  - rewrite (add_spatial_temporal_conv_raise _ _ _ _ _ _ _ E) in H.
    injection H as <- <-. now split.
  - rewrite (add_spatial_temporal_conv_raise _ _ _ _ _ _ _ E) in H.
    injection H as <- <-. now split.
  - rewrite (add_spatial_temporal_conv_run _ _ _ _ _ s
               (ex_intro _ m E)) in H.
    injection H as <- <-. split; [exact Hd|].
    split; [unfold st_conv_nodes; do 4 eexists; reflexivity|].
    split; reflexivity.
Qed.

Lemma add_spatial_temporal_conv_outcome_witness :
  match fst (add_spatial_temporal_conv
               (ModelBuilder_init 0 (9 # 10)%Q "off" 512) 0 (10 ^ 400)
               (10 ^ 400) (1, 1, 1) [Var "data" "float32"]) with
  | Raise ZeroDivisionError =>
      snd (add_spatial_temporal_conv
             (ModelBuilder_init 0 (9 # 10)%Q "off" 512) 0 (10 ^ 400)
             (10 ^ 400) (1, 1, 1) [Var "data" "float32"])
      = [Var "data" "float32"]
      /\ 10 ^ 400 * 9 + 3 * 10 ^ 400 = 0
  | Raise OverflowError =>
      snd (add_spatial_temporal_conv
             (ModelBuilder_init 0 (9 # 10)%Q "off" 512) 0 (10 ^ 400)
             (10 ^ 400) (1, 1, 1) [Var "data" "float32"])
      = [Var "data" "float32"]
      /\ 10 ^ 400 * 9 + 3 * 10 ^ 400 <> 0
  | Raise (KeyError _) => False
  | Ok (self', out) =>
      10 ^ 400 * 9 + 3 * 10 ^ 400 <> 0
      /\ (exists n1 n2 n3 n4,
             snd (add_spatial_temporal_conv
                    (ModelBuilder_init 0 (9 # 10)%Q "off" 512) 0 (10 ^ 400)
                    (10 ^ 400) (1, 1, 1) [Var "data" "float32"])
             = ([Var "data" "float32"] ++ [n1; n2; n3; n4])%list)
      /\ out = (List.length [Var "data" "float32"] + 3)%nat
      /\ self' = mkBuilder
                   (comp_count (ModelBuilder_init 0 (9 # 10)%Q "off" 512))
                   (comp_idx (ModelBuilder_init 0 (9 # 10)%Q "off" 512) + 1)
                   (bn_mom (ModelBuilder_init 0 (9 # 10)%Q "off" 512))
                   (no_bias (ModelBuilder_init 0 (9 # 10)%Q "off" 512))
                   (cudnn_tune (ModelBuilder_init 0 (9 # 10)%Q "off" 512))
                   (workspace (ModelBuilder_init 0 (9 # 10)%Q "off" 512))
  end.
Proof.
  apply (add_spatial_temporal_conv_outcome
           (ModelBuilder_init 0 (9 # 10)%Q "off" 512) 0 (10 ^ 400)
           (10 ^ 400) (1, 1, 1) [Var "data" "float32"]).
  vm_compute. reflexivity.
Defined.

(** X3: a block that returns has allocated 15 nodes if it projects the
    shortcut and 13 if not; it returns the last node allocated, the ReLU of
    the one addition it allocated; the builder it leaves has [comp_count] one
    higher, [comp_idx] 2 whatever it was, and the configuration it had. *)
Theorem add_r3d_block_summary self data i o down sbn os (s : store)
    self' out s' :
  add_r3d_block self data i o down sbn os s = (Ok (self', out), s') ->
  let new := skipn (List.length s) s' in
  s' = (s ++ new)%list
  /\ List.length new
     = (if negb (o =? i) || down then 15%nat else 13%nat)
  /\ S out = List.length s'
  /\ nth_error s' out = Some (Activation (out - 1)%nat "relu")
  /\ (exists l r, nth_error s' (out - 1) = Some (Plus l r))
  /\ residual_blocks new = 1%nat
  /\ self' = mkBuilder (comp_count self + 1) 2 (bn_mom self) (no_bias self)
               (cudnn_tune self) (workspace self).
Proof.
  intros H new.
  destruct (add_r3d_block_ok_inv _ _ _ _ _ _ _ _ _ _ H) as [Hd Ho].
  rewrite (add_r3d_block_run _ _ _ _ _ sbn os s Hd Ho) in H.
  injection H as <- <- <-.
  subst new. rewrite skipn_app_length, length_app.
  unfold block_out, block_nodes, needs_projection, block_builder.
  destruct (negb (o =? i) || down).
  - replace (List.length s + 14 - 1)%nat with (List.length s + 13)%nat
      by lia.
    rewrite !nth_error_app_plus.
    split; [reflexivity|]. split; [reflexivity|].
    split; [cbn [app List.length st_conv_nodes shortcut_nodes]; lia|]. split; [reflexivity|].
    split; [do 2 eexists; reflexivity|]. split; reflexivity.
  - replace (List.length s + 12 - 1)%nat with (List.length s + 11)%nat
      by lia.
    rewrite !nth_error_app_plus.
    split; [reflexivity|]. split; [reflexivity|].
    split; [cbn [app List.length st_conv_nodes shortcut_nodes]; lia|]. split; [reflexivity|].
    split; [do 2 eexists; reflexivity|]. split; reflexivity.
Qed.

Lemma add_r3d_block_summary_witness :
  let self := ModelBuilder_init 0 (9 # 10)%Q "off" 512 in
  let s := [Var "data" "float32"] in
  let r := add_r3d_block self 0 64 128 true true false s in
  let new := skipn (List.length s) (snd r) in
  snd r = (s ++ new)%list
  /\ List.length new
     = (if negb (128 =? 64) || true then 15%nat else 13%nat)
  /\ S 15 = List.length (snd r)
  /\ nth_error (snd r) 15 = Some (Activation (15 - 1)%nat "relu")
  /\ (exists l r', nth_error (snd r) (15 - 1) = Some (Plus l r'))
  /\ residual_blocks new = 1%nat
  /\ mkBuilder 1 2 (9 # 10)%Q 0 "off" 512
     = mkBuilder (comp_count self + 1) 2 (bn_mom self) (no_bias self)
         (cudnn_tune self) (workspace self).
Proof.
  exact (add_r3d_block_summary
           (ModelBuilder_init 0 (9 # 10)%Q "off" 512) 0 64 128 true true
           false [Var "data" "float32"] _ 15%nat _ eq_refl).
Defined.

(** X5: for positive channel counts with [27 * in * out < 2^53] the middle
    width is at least 2 and stays below both [3*out] and [9*in]: the
    decomposed convolution does not ask for a convolution without
    filters. *)
Theorem middle_filters_bounds (i o : Z) (s : store) :
  0 < i -> 0 < o -> 3 * i * o * 9 < 2 ^ 53 ->
  exists m,
    middle_filters i o s = (Ok m, s)
    /\ 2 <= m /\ m < 3 * o /\ m < 9 * i.
Proof.
  intros Hi Ho Hb.
  assert (Hd : 0 < i * 9 + 3 * o) by lia.
  eexists. split.
  - rewrite middle_filters_pure, (middle_result_exact i o Hi Ho Hb).
    reflexivity.
  - split; [|split].
    + apply Z.div_le_lower_bound; [exact Hd|nia].
    + apply Z.div_lt_upper_bound; [exact Hd|nia].
    + apply Z.div_lt_upper_bound; [exact Hd|nia].
Qed.

Lemma middle_filters_bounds_witness :
  exists m,
    middle_filters 64 128 [] = (Ok m, [])
    /\ 2 <= m /\ m < 3 * 128 /\ m < 9 * 64.
Proof.
  apply (middle_filters_bounds 64 128 []); [lia|lia|].
  vm_compute. reflexivity.
Defined.

(** ** A run of blocks of one width *)

Lemma residual_blocks_app (g1 g2 : store) :
  residual_blocks (g1 ++ g2)%list = (residual_blocks g1 + residual_blocks g2)%nat.
Proof.
  unfold residual_blocks. now rewrite filter_app, length_app.
Qed.

Lemma block_nodes_same_width self data c os (base : nat) :
  let new := block_nodes self data c c false os base in
  List.length new = 13%nat
  /\ residual_blocks new = 1%nat
  /\ existsb is_projection new = false.
Proof.
  unfold block_nodes, needs_projection. rewrite Z.eqb_refl.
  cbn. repeat split.
Qed.

(** * Further properties of the assembled graph *)

Lemma create_r3d_lookup_fails nc nb depth fsk ftk mom ct ws (s : store) :
  BLOCK_CONFIG depth = None ->
  create_r3d nc nb depth fsk ftk mom ct ws s
  = (Raise (KeyError depth),
     (s ++ stem_nodes nb mom ct ws (List.length s))%list).
Proof.
  intros H. unfold create_r3d, bind, emit, stem_nodes.
  rewrite H. unfold raise. norm_store. reflexivity.
Qed.

Lemma node_inputs_shift (k : nat) (n : Node) :
  node_inputs (shift_node k n) = map (Nat.add k) (node_inputs n).
Proof. destruct n; reflexivity. Qed.

Lemma closed_from_nth : forall g p j n h,
  closed_from p g = true ->
  nth_error g j = Some n -> In h (node_inputs n) -> (h < p + j)%nat.
Proof.
  induction g as [|n0 g IH]; intros p j n h Hc Hj Hin.
  - destruct j; discriminate.
  - cbn [closed_from] in Hc. apply andb_prop in Hc. destruct Hc as [H0 Hg].
    destruct j as [|j]; cbn in Hj.
    + injection Hj as ->.
      rewrite forallb_forall in H0. apply H0 in Hin.
      apply Nat.ltb_lt in Hin. lia.
    + specialize (IH (S p) j n h Hg Hj Hin). lia.
Qed.

Lemma create_r3d_closed nc nb depth fsk ftk mom ct ws :
  closed_from 0 (snd (create_r3d nc nb depth fsk ftk mom ct ws [])) = true.
Proof.
  destruct (BLOCK_CONFIG depth) as [[[[n1 n2] n3] n4]|] eqn:H.
  - supported_depths H; vm_compute; reflexivity.
  - rewrite (create_r3d_lookup_fails _ _ _ _ _ _ _ _ [] H). reflexivity.
Qed.

(** X6: whatever the arguments and whatever the log holds already, a node
    that [create_r3d] allocates reads only nodes of the same call that were
    allocated before it: the graph is acyclic, data flows forward, and it
    never refers to a node that existed before the call.  This holds for the
    stem left behind by a failed lookup too. *)
Theorem create_r3d_self_contained
    (nc nb depth fsk ftk : Z) (mom : Q) (ct : string) (ws : Z)
    (s0 : store) (p : nat) (n : Node) (h : handle) :
  nth_error (snd (create_r3d nc nb depth fsk ftk mom ct ws s0)) p = Some n ->
  (List.length s0 <= p)%nat ->
  In h (node_inputs n) ->
  (List.length s0 <= h < p)%nat.
Proof.
  intros Hp Hle Hin.
  rewrite create_r3d_reloc in Hp. cbn [snd] in Hp.
  rewrite nth_error_app2 in Hp by exact Hle.
  rewrite nth_error_map in Hp.
  destruct (nth_error _ (p - List.length s0)) as [n0|] eqn:Hn0;
    [|discriminate].
  injection Hp as <-.
  rewrite node_inputs_shift in Hin. apply in_map_iff in Hin.
  destruct Hin as (h0 & <- & Hin0).
  pose proof (closed_from_nth _ 0 _ _ _
                (create_r3d_closed nc nb depth fsk ftk mom ct ws)
                Hn0 Hin0) as Hlt.
  lia.
Qed.

Lemma create_r3d_self_contained_witness :
  nth_error
    (snd (create_r3d 400 0 10 7 1 (9 # 10)%Q "off" 512
            [Var "x" "float32"; Var "y" "float32"])) 35
  = Some (Plus 34 32)
  /\ (List.length [Var "x" "float32"; Var "y" "float32"] <= 34 < 35)%nat.
Proof.
  assert (H : nth_error
                (snd (create_r3d 400 0 10 7 1 (9 # 10)%Q "off" 512
                        [Var "x" "float32"; Var "y" "float32"])) 35
              = Some (Plus 34 32)) by (vm_compute; reflexivity).
  split; [exact H|].
  apply (create_r3d_self_contained 400 0 10 7 1 (9 # 10)%Q "off" 512
           [Var "x" "float32"; Var "y" "float32"] 35 (Plus 34 32) 34 H).
  - simpl. lia.
  - simpl. tauto.
Defined.

(** X7: at a supported depth the call returns the last node it allocated,
    the softmax output named "softmax".  It reads the label placeholder
    allocated just before it and the fully-connected layer with [num_class]
    hidden units, which reads the average pooling with kernel
    (final_temporal_kernel, final_spatial_kernel, final_spatial_kernel),
    which reads the ReLU that closes the last block; the log starts with
    the seven stem nodes. *)
Theorem create_r3d_head
    (nc nb depth fsk ftk : Z) (mom : Q) (ct : string) (ws : Z)
    (n1 n2 n3 n4 : Z) :
  BLOCK_CONFIG depth = Some (n1, n2, n3, n4) ->
  exists out g,
    create_r3d nc nb depth fsk ftk mom ct ws [] = (Ok out, g)
    /\ S out = List.length g
    /\ nth_error g out
       = Some (SoftmaxOutput (out - 2) (out - 1) true true "null" "softmax")
    /\ nth_error g (out - 1) = Some (Var "softmax_label" "float32")
    /\ nth_error g (out - 2) = Some (FullyConnected (out - 3) nc "final_fc")
    /\ nth_error g (out - 3)
       = Some (Pooling (out - 4) (ftk, fsk, fsk) (1, 1, 1) (0, 0, 0) "avg"
                 "final_pool")
    /\ nth_error g (out - 4) = Some (Activation (out - 5) "relu")
    /\ (exists l r, nth_error g (out - 5) = Some (Plus l r))
    /\ firstn 7 g = stem_nodes nb mom ct ws 0.
Proof.
  intros H.
  supported_depths H;
    eexists; eexists;
    (split; [vm_compute; reflexivity|]);
    repeat (split; [vm_compute; reflexivity|]);
    (split; [do 2 eexists; vm_compute; reflexivity|]);
    vm_compute; reflexivity.
Qed.

Lemma create_r3d_head_witness :
  exists out g,
    create_r3d 400 0 18 7 1 (9 # 10)%Q "off" 512 [] = (Ok out, g)
    /\ S out = List.length g
    /\ nth_error g out
       = Some (SoftmaxOutput (out - 2) (out - 1) true true "null" "softmax")
    /\ nth_error g (out - 1) = Some (Var "softmax_label" "float32")
    /\ nth_error g (out - 2) = Some (FullyConnected (out - 3) 400 "final_fc")
    /\ nth_error g (out - 3)
       = Some (Pooling (out - 4) (1, 7, 7) (1, 1, 1) (0, 0, 0) "avg"
                 "final_pool")
    /\ nth_error g (out - 4) = Some (Activation (out - 5) "relu")
    /\ (exists l r, nth_error g (out - 5) = Some (Plus l r))
    /\ firstn 7 g = stem_nodes 0 (9 # 10)%Q "off" 512 0.
Proof.
  exact (create_r3d_head 400 0 18 7 1 (9 # 10)%Q "off" 512 2 2 2 2 eq_refl).
Defined.

Lemma conv_arguments_ok_nth nb ct ws : forall rest h j n,
  conv_arguments_ok nb ct ws h rest ->
  nth_error rest j = Some n ->
  conv_arguments_ok nb ct ws (h + j) [n].
Proof.
  induction rest as [|n0 rest IH]; intros h j n Hok Hj.
  - destruct j; discriminate.
  - destruct Hok as [H0 Hrest]. destruct j as [|j]; cbn in Hj.
    + injection Hj as ->. rewrite Nat.add_0_r. split; [exact H0|exact I].
    + replace (h + S j)%nat with (S h + j)%nat by lia.
      eapply IH; eassumption.
Qed.

(** X8: in the graph of a supported depth every convolution is given a
    padding and the caller's [cudnn_tune] and [workspace], except a 1x1x1
    shortcut projection, which is given none of the three; the two stem
    convolutions are given [no_bias] as the caller passed it, every
    convolution of a block (projections included) its truth value, 1 or 0. *)
Theorem create_r3d_conv_arguments
    (nc nb depth fsk ftk : Z) (mom : Q) (ct : string) (ws : Z)
    (n1 n2 n3 n4 : Z) (h : handle) d nf ke st pa b c w name :
  BLOCK_CONFIG depth = Some (n1, n2, n3, n4) ->
  nth_error (snd (create_r3d nc nb depth fsk ftk mom ct ws [])) h
  = Some (Convolution d nf ke st pa b c w name) ->
  (if is_projection (Convolution d nf ke st pa b c w name)
   then pa = None /\ c = None /\ w = None
   else pa <> None /\ c = Some ct /\ w = Some ws)
  /\ b = (if Nat.ltb h 7 then nb else if truthy nb then 1 else 0).
Proof.
  intros H Hh.
  assert (Hok : conv_arguments_ok nb ct ws 0
                  (snd (create_r3d nc nb depth fsk ftk mom ct ws []))).
  { clear Hh. supported_depths H; vm_compute;
      repeat split; discriminate. }
  exact (proj1 (conv_arguments_ok_nth nb ct ws _ 0 h _ Hok Hh)).
Qed.

Lemma create_r3d_conv_arguments_witness :
  nth_error (snd (create_r3d 400 5 10 7 1 (9 # 10)%Q "off" 512 [])) 31
  = Some (Convolution 19 128 (1, 1, 1) (2, 2, 2) None 1 None None
            "shortcut_projection_1")
  /\ (if is_projection
           (Convolution 19 128 (1, 1, 1) (2, 2, 2) None 1 None None
              "shortcut_projection_1")
      then @None triple = None /\ @None string = None /\ @None Z = None
      else @None triple <> None /\ None = Some "off" /\ None = Some 512)
  /\ 1 = (if Nat.ltb 31 7 then 5 else if truthy 5 then 1 else 0).
Proof.
  assert (H : nth_error
                (snd (create_r3d 400 5 10 7 1 (9 # 10)%Q "off" 512 [])) 31
              = Some (Convolution 19 128 (1, 1, 1) (2, 2, 2) None 1 None None
                        "shortcut_projection_1")) by (vm_compute; reflexivity).
  split; [exact H|].
  exact (create_r3d_conv_arguments 400 5 10 7 1 (9 # 10)%Q "off" 512
           1 1 1 1 31 19 128 (1, 1, 1) (2, 2, 2) None 1 None None
           "shortcut_projection_1" eq_refl H).
Defined.




(** X10: at every supported depth the graph has the same ten strided
    convolutions, in this order: the 1x7x7 stem convolution with stride
    (1,2,2); then, for each of the widths 128, 256 and 512, the first block
    of the stage with its 1x3x3 convolution at stride (1,2,2), its 3x1x1
    convolution at stride (2,1,1) and its 1x1x1 projection at stride
    (2,2,2).  No block is downsampled in space only. *)
Theorem create_r3d_strided
    (nc nb depth fsk ftk : Z) (mom : Q) (ct : string) (ws : Z)
    (n1 n2 n3 n4 : Z) :
  BLOCK_CONFIG depth = Some (n1, n2, n3, n4) ->
  strided (snd (create_r3d nc nb depth fsk ftk mom ct ws []))
  = [ ((1, 7, 7), (1, 2, 2), 45);
      ((1, 3, 3), (1, 2, 2), middle_quot 64 128);
      ((3, 1, 1), (2, 1, 1), 128);
      ((1, 1, 1), (2, 2, 2), 128);
      ((1, 3, 3), (1, 2, 2), middle_quot 128 256);
      ((3, 1, 1), (2, 1, 1), 256);
      ((1, 1, 1), (2, 2, 2), 256);
      ((1, 3, 3), (1, 2, 2), middle_quot 256 512);
      ((3, 1, 1), (2, 1, 1), 512);
      ((1, 1, 1), (2, 2, 2), 512) ]%list.
Proof.
  intros H. supported_depths H; vm_compute; reflexivity.
Qed.

Lemma create_r3d_strided_witness :
  strided (snd (create_r3d 400 0 34 7 1 (9 # 10)%Q "off" 512 []))
  = [ ((1, 7, 7), (1, 2, 2), 45);
      ((1, 3, 3), (1, 2, 2), middle_quot 64 128);
      ((3, 1, 1), (2, 1, 1), 128);
      ((1, 1, 1), (2, 2, 2), 128);
      ((1, 3, 3), (1, 2, 2), middle_quot 128 256);
      ((3, 1, 1), (2, 1, 1), 256);
      ((1, 1, 1), (2, 2, 2), 256);
      ((1, 3, 3), (1, 2, 2), middle_quot 256 512);
      ((3, 1, 1), (2, 1, 1), 512);
      ((1, 1, 1), (2, 2, 2), 512) ]%list.
Proof.
  exact (create_r3d_strided 400 0 34 7 1 (9 # 10)%Q "off" 512 3 4 6 3
           eq_refl).
Defined.

(** * The generated names, for any block counter *)

Lemma all_digits_uint (d : Decimal.uint) :
  all_digits (NilEmpty.string_of_uint d) = true.
Proof. induction d; cbn; auto. Qed.

Lemma fmt_d_digits (n : nat) : all_digits (fmt_d n) = true.
Proof. apply all_digits_uint. Qed.

Lemma fmt_d_inj (n m : nat) : fmt_d n = fmt_d m -> n = m.
Proof.
  unfold fmt_d. intros H.
  assert (E : Nat.to_uint n = Nat.to_uint m).
  { apply (f_equal NilEmpty.uint_of_string) in H.
    rewrite !NilEmpty.usu in H. now injection H. }
  apply (f_equal Nat.of_uint) in E.
  now rewrite !DecimalNat.Unsigned.of_to in E.
Qed.

Lemma incl_firstn {A} (n : nat) (l : list A) : incl (firstn n l) l.
Proof.
  intros x Hx. rewrite <- (firstn_skipn n l). apply in_or_app. now left.
Qed.

Lemma append_empty_r (s : string) : s ++ "" = s.
Proof. induction s as [|a s IH]; cbn; [reflexivity|now rewrite IH]. Qed.

Lemma append_inv_head (p x y : string) : p ++ x = p ++ y -> x = y.
Proof.
  induction p as [|a p IH]; cbn; intros H; [exact H|].
  injection H as H. now apply IH.
Qed.

Lemma digits_append_inj : forall a a' t t' : string,
  all_digits a = true -> all_digits a' = true ->
  tail_ok t = true -> tail_ok t' = true ->
  a ++ t = a' ++ t' -> a = a' /\ t = t'.
Proof.
  induction a as [|x a IH]; intros [|x' a'] t t' Ha Ha' Ht Ht' H; cbn in *.
  - now split.
  - subst t. cbn in Ht. apply andb_prop in Ha'. destruct Ha' as [Hx _].
    rewrite Hx in Ht. discriminate.
  - subst t'. cbn in Ht'. apply andb_prop in Ha. destruct Ha as [Hx _].
    rewrite Hx in Ht'. discriminate.
  - injection H as -> H.
    apply andb_prop in Ha. apply andb_prop in Ha'.
    destruct (IH a' t t' (proj2 Ha) (proj2 Ha') Ht Ht' H) as [-> ->].
    now split.
Qed.

Lemma block_name_inj (c c' : nat) (sg sg' : bool * string) :
  tail_ok (snd sg) = true -> tail_ok (snd sg') = true ->
  block_name c sg = block_name c' sg' -> c = c' /\ sg = sg'.
Proof.
  destruct sg as [b t], sg' as [b' t']. unfold block_name. cbn [fst snd].
  intros Ht Ht' H.
  destruct b, b'; try (cbn in H; discriminate H);
    apply append_inv_head in H;
    destruct (digits_append_inj _ _ _ _ (fmt_d_digits c) (fmt_d_digits c')
                Ht Ht' H) as [Hc ->];
    apply fmt_d_inj in Hc; now subst.
Qed.

Lemma block_signatures_tail_ok sg :
  In sg block_signatures -> tail_ok (snd sg) = true.
Proof.
  intros H. cbn in H.
  repeat (destruct H as [<-|H]; [reflexivity|]). contradiction.
Qed.

Lemma block_signatures_NoDup : NoDup block_signatures.
Proof.
  unfold block_signatures.
  repeat (constructor; [cbn; intros H;
                        repeat (destruct H as [H|H]; [discriminate H|]);
                        exact H|]).
  constructor.
Qed.

(** The names of a block are the block names of its counter: all ten when
    the shortcut is projected, the first eight otherwise. *)
Lemma names_block_nodes self data i o down os (base : nat) :
  names (block_nodes self data i o down os base)
  = map (block_name (comp_count self))
      (if needs_projection i o down then block_signatures
       else firstn 8 block_signatures).
Proof.
  unfold block_nodes, block_signatures, block_name.
  destruct (needs_projection i o down); cbn [map firstn fst snd];
    rewrite ?append_empty_r; reflexivity.
Qed.

Lemma names_block_nodes_In self data i o down os (base : nat) x :
  In x (names (block_nodes self data i o down os base)) ->
  exists sg, In sg block_signatures /\ x = block_name (comp_count self) sg.
Proof.
  rewrite names_block_nodes. intros H. apply in_map_iff in H.
  destruct H as (sg & <- & Hsg). exists sg. split; [|reflexivity].
  destruct (needs_projection i o down); [exact Hsg|].
  apply (incl_firstn 8). exact Hsg.
Qed.

Lemma names_block_nodes_NoDup self data i o down os (base : nat) :
  NoDup (names (block_nodes self data i o down os base)).
Proof.
  rewrite names_block_nodes.
  assert (Hincl : incl (if needs_projection i o down then block_signatures
                        else firstn 8 block_signatures) block_signatures).
  { destruct (needs_projection i o down);
      [apply incl_refl|apply incl_firstn]. }
  apply NoDup_map_NoDup_ForallPairs.
  - intros sg sg' Hsg Hsg' E.
    apply block_name_inj in E; [tauto| |];
      apply block_signatures_tail_ok, Hincl; assumption.
  - destruct (needs_projection i o down);
      [apply block_signatures_NoDup|].
    pose proof block_signatures_NoDup as H.
    rewrite <- (firstn_skipn 8 block_signatures) in H.
    apply NoDup_app_remove_r in H. exact H.
Qed.

Lemma block_name_not_fixed c sg :
  In sg block_signatures -> ~ In (block_name c sg) fixed_names.
Proof.
  intros Hsg Hin. unfold fixed_names in Hin. cbn [In] in Hin.
  destruct sg as [[|] t]; unfold block_name in Hin; cbn [fst snd] in Hin;
    cbn in Hin;
    repeat (destruct Hin as [Hin|Hin]; [try discriminate Hin|]);
    try contradiction.
Qed.

Lemma names_app (g1 g2 : store) :
  names (g1 ++ g2)%list = (names g1 ++ names g2)%list.
Proof. unfold names. apply flat_map_app. Qed.

(** X11: the names a block gives its nodes are pairwise distinct, whatever
    the block counter; none of them is a name [create_r3d] gives outside
    the blocks; and two blocks built at different block counters have no
    name in common. *)
Theorem add_r3d_block_names
    self1 data1 i1 o1 down1 sbn1 os1 (s1 : store) x1 s1'
    self2 data2 i2 o2 down2 sbn2 os2 (s2 : store) x2 s2' :
  add_r3d_block self1 data1 i1 o1 down1 sbn1 os1 s1 = (Ok x1, s1') ->
  add_r3d_block self2 data2 i2 o2 down2 sbn2 os2 s2 = (Ok x2, s2') ->
  let nm1 := names (skipn (List.length s1) s1') in
  let nm2 := names (skipn (List.length s2) s2') in
  NoDup nm1
  /\ (forall x, In x nm1 -> ~ In x fixed_names)
  /\ (comp_count self1 <> comp_count self2 ->
      forall x, In x nm1 -> ~ In x nm2).
Proof.
  intros H1 H2 nm1 nm2.
  destruct (add_r3d_block_ok_inv _ _ _ _ _ _ _ _ _ _ H1) as [Hd1 Ho1].
  destruct (add_r3d_block_ok_inv _ _ _ _ _ _ _ _ _ _ H2) as [Hd2 Ho2].
  rewrite (add_r3d_block_run _ _ _ _ _ sbn1 os1 s1 Hd1 Ho1) in H1.
  rewrite (add_r3d_block_run _ _ _ _ _ sbn2 os2 s2 Hd2 Ho2) in H2.
  injection H1 as _ <-. injection H2 as _ <-.
  subst nm1 nm2. rewrite !skipn_app_length.
  split; [apply names_block_nodes_NoDup|]. split.
  - intros x Hx. apply names_block_nodes_In in Hx.
    destruct Hx as (sg & Hsg & ->). now apply block_name_not_fixed.
  - intros Hne x Hx Hx'.
    apply names_block_nodes_In in Hx. destruct Hx as (sg & Hsg & ->).
    apply names_block_nodes_In in Hx'. destruct Hx' as (sg' & Hsg' & E).
    apply block_name_inj in E;
      [|now apply block_signatures_tail_ok..].
    destruct E as [E _]. contradiction.
Qed.

Lemma add_r3d_block_names_witness :
  let b0 := ModelBuilder_init 0 (9 # 10)%Q "off" 512 in
  let b9 := mkBuilder 9 2 (9 # 10)%Q 0 "off" 512 in
  let s := [Var "data" "float32"] in
  let nm1 := names (skipn (List.length s)
                      (snd (add_r3d_block b0 0 64 128 true true false s))) in
  let nm2 := names (skipn (List.length s)
                      (snd (add_r3d_block b9 0 64 64 false true false s))) in
  NoDup nm1
  /\ (forall x, In x nm1 -> ~ In x fixed_names)
  /\ (comp_count b0 <> comp_count b9 ->
      forall x, In x nm1 -> ~ In x nm2).
Proof.
  exact (add_r3d_block_names
           (ModelBuilder_init 0 (9 # 10)%Q "off" 512) 0 64 128 true true
           false [Var "data" "float32"] _ _
           (mkBuilder 9 2 (9 # 10)%Q 0 "off" 512) 0 64 64 false true
           false [Var "data" "float32"] _ _ eq_refl eq_refl).
Defined.

(** What a run of blocks that returns has done: the log, the builder and
    the names. *)
Lemma block_loop_ok_inv (n : nat) : forall builder body c (s : store) r s',
  block_loop n builder body c c s = (Ok r, s') ->
  exists new,
    s' = (s ++ new)%list
    /\ List.length new = (13 * n)%nat
    /\ residual_blocks new = n
    /\ existsb is_projection new = false
    /\ comp_count (fst r) = (comp_count builder + n)%nat
    /\ bn_mom (fst r) = bn_mom builder
    /\ no_bias (fst r) = no_bias builder
    /\ cudnn_tune (fst r) = cudnn_tune builder
    /\ workspace (fst r) = workspace builder
    /\ (n = 0%nat -> r = (builder, body))
    /\ (n <> 0%nat -> S (snd r) = (List.length s + 13 * n)%nat)
    /\ NoDup (names new)
    /\ (forall x, In x (names new) ->
        exists k sg,
          (comp_count builder <= k < comp_count builder + n)%nat
          /\ In sg block_signatures /\ x = block_name k sg).
Proof.
  induction n as [|n IH]; intros builder body c s r s' H.
  - cbn [block_loop] in H. unfold ret in H. injection H as <- <-.
    exists []%list. rewrite app_nil_r. cbn [fst snd].
    repeat split; try reflexivity; try lia; try congruence;
      try constructor.
    intros x [].
  - cbn [block_loop] in H.
    destruct (add_r3d_block builder body c c false true false s)
      as [[[b1 h1]|e] s1] eqn:E1.
    2: { rewrite (bind_raise _ _ _ _ _ E1) in H. discriminate. }
    rewrite (bind_ok _ _ _ _ _ E1) in H.
    destruct (add_r3d_block_ok_inv _ _ _ _ _ _ _ _ _ _ E1) as [Hd Ho].
    rewrite (add_r3d_block_run _ _ _ _ _ true false s Hd Ho) in E1.
    injection E1 as <- <- <-.
    destruct (block_nodes_same_width builder body c false (List.length s))
      as (Hlen & Hres & Hproj).
    set (new1 := block_nodes builder body c c false false (List.length s))
      in *.
    destruct (IH _ _ _ _ _ _ H)
      as (new2 & -> & Hl2 & Hr2 & Hp2 & Hcc & Hm & Hb & Ht & Hw & H0 & Hpos
          & Hnd & Hin).
    exists (new1 ++ new2)%list. rewrite app_assoc.
    split; [reflexivity|].
    split; [rewrite length_app; lia|].
    split; [rewrite residual_blocks_app; lia|].
    split; [rewrite existsb_app, Hproj, Hp2; reflexivity|].
    split; [rewrite Hcc; cbn; lia|].
    split; [rewrite Hm; reflexivity|]. split; [rewrite Hb; reflexivity|].
    split; [rewrite Ht; reflexivity|]. split; [rewrite Hw; reflexivity|].
    split; [discriminate|].
    split.
    { intros _. destruct n as [|n'].
      - rewrite (H0 eq_refl). cbn [snd].
        unfold block_out, needs_projection. rewrite Z.eqb_refl. cbn. lia.
      - rewrite Hpos by discriminate. rewrite length_app. lia. }
    rewrite names_app. split.
    + apply NoDup_app; [apply names_block_nodes_NoDup|exact Hnd|].
      intros x Hx Hx'.
      apply names_block_nodes_In in Hx. destruct Hx as (sg & Hsg & ->).
      destruct (Hin _ Hx') as (k & sg' & Hk & Hsg' & E).
      apply block_name_inj in E;
        [|now apply block_signatures_tail_ok..].
      destruct E as [E _]. cbn [block_builder comp_count] in Hk. lia.
    + intros x Hx. apply in_app_or in Hx. destruct Hx as [Hx|Hx].
      * apply names_block_nodes_In in Hx. destruct Hx as (sg & Hsg & ->).
        exists (comp_count builder), sg. split; [lia|]. now split.
      * destruct (Hin _ Hx) as (k & sg & Hk & Hsg & ->).
        exists k, sg. cbn [block_builder comp_count] in Hk.
        split; [lia|]. now split.
Qed.

(** X4: a run of [n] blocks of one width that returns has allocated
    [13 * n] nodes, among them [n] additions and no 1x1x1 projection; the
    builder's block counter has advanced by [n] and its configuration is the
    one it had; the node returned is the last one allocated, or the input
    itself when [n] is 0. *)
Theorem block_loop_summary (n : nat) (builder : ModelBuilder) (body : handle)
    (c : Z) (s : store) builder' out s' :
  block_loop n builder body c c s = (Ok (builder', out), s') ->
  let new := skipn (List.length s) s' in
  s' = (s ++ new)%list
  /\ List.length new = (13 * n)%nat
  /\ residual_blocks new = n
  /\ existsb is_projection new = false
  /\ comp_count builder' = (comp_count builder + n)%nat
  /\ bn_mom builder' = bn_mom builder
  /\ no_bias builder' = no_bias builder
  /\ cudnn_tune builder' = cudnn_tune builder
  /\ workspace builder' = workspace builder
  /\ (n = 0%nat -> out = body /\ builder' = builder)
  /\ (n <> 0%nat -> S out = (List.length s + 13 * n)%nat).
Proof.
  intros H new.
  destruct (block_loop_ok_inv _ _ _ _ _ _ _ H)
    as (new' & -> & Hl & Hr & Hp & Hcc & Hm & Hb & Ht & Hw & H0 & Hpos & _).
  subst new. rewrite skipn_app_length. cbn [fst snd] in *.
  repeat (split; [assumption || reflexivity|]).
  split; [|exact Hpos].
  intros Hn. specialize (H0 Hn). injection H0 as -> ->. now split.
Qed.

Lemma block_loop_summary_witness :
  let b := ModelBuilder_init 0 (9 # 10)%Q "off" 512 in
  let s := [Var "data" "float32"] in
  let s' := snd (block_loop 3 b 0 64 64 s) in
  let new := skipn (List.length s) s' in
  s' = (s ++ new)%list
  /\ List.length new = (13 * 3)%nat
  /\ residual_blocks new = 3%nat
  /\ existsb is_projection new = false
  /\ comp_count (mkBuilder 3 2 (9 # 10)%Q 0 "off" 512)
     = (comp_count b + 3)%nat
  /\ bn_mom (mkBuilder 3 2 (9 # 10)%Q 0 "off" 512) = bn_mom b
  /\ no_bias (mkBuilder 3 2 (9 # 10)%Q 0 "off" 512) = no_bias b
  /\ cudnn_tune (mkBuilder 3 2 (9 # 10)%Q 0 "off" 512) = cudnn_tune b
  /\ workspace (mkBuilder 3 2 (9 # 10)%Q 0 "off" 512) = workspace b
  /\ (3%nat = 0%nat
      -> 39%nat = 0%nat /\ mkBuilder 3 2 (9 # 10)%Q 0 "off" 512 = b)
  /\ (3%nat <> 0%nat -> S 39 = (List.length s + 13 * 3)%nat).
Proof.
  apply (block_loop_summary 3 (ModelBuilder_init 0 (9 # 10)%Q "off" 512) 0
           64 [Var "data" "float32"]
           (mkBuilder 3 2 (9 # 10)%Q 0 "off" 512) 39%nat).
  vm_compute. reflexivity.
Defined.

(** X12: in a run of [n] blocks of one width that returns, for any [n] and
    from any block counter, every name is a block name of one of the [n]
    counters the run went through, no name is given twice, and none is a
    name [create_r3d] gives outside the blocks. *)
Theorem block_loop_names (n : nat) (builder : ModelBuilder) (body : handle)
    (c : Z) (s : store) r s' :
  block_loop n builder body c c s = (Ok r, s') ->
  let new := skipn (List.length s) s' in
  NoDup (names new)
  /\ (forall x, In x (names new) ->
      ~ In x fixed_names
      /\ exists k sg,
           (comp_count builder <= k < comp_count builder + n)%nat
           /\ In sg block_signatures /\ x = block_name k sg).
Proof.
  intros H new.
  destruct (block_loop_ok_inv _ _ _ _ _ _ _ H)
    as (new' & -> & _ & _ & _ & _ & _ & _ & _ & _ & _ & _ & Hnd & Hin).
  subst new. rewrite skipn_app_length.
  split; [exact Hnd|].
  intros x Hx. split; [|now apply Hin].
  destruct (Hin x Hx) as (k & sg & _ & Hsg & ->).
  now apply block_name_not_fixed.
Qed.

Lemma block_loop_names_witness :
  let b := ModelBuilder_init 0 (9 # 10)%Q "off" 512 in
  let s := [Var "data" "float32"] in
  let new := skipn (List.length s) (snd (block_loop 5 b 0 256 256 s)) in
  NoDup (names new)
  /\ (forall x, In x (names new) ->
      ~ In x fixed_names
      /\ exists k sg,
           (comp_count b <= k < comp_count b + 5)%nat
           /\ In sg block_signatures /\ x = block_name k sg).
Proof.
  apply (block_loop_names 5 (ModelBuilder_init 0 (9 # 10)%Q "off" 512) 0
           256 [Var "data" "float32"]
           (mkBuilder 5 2 (9 # 10)%Q 0 "off" 512, 65%nat)).
  vm_compute. reflexivity.
Defined.

(** * C7: two invocations *)







